(** * Vex-Cogs: the version report and the status command

    A shallow embedding of two modules of the repository:

    - [ghissues/vexutils/meta.py]: [_get_current_vers], [_get_latest_vers],
      [format_info] and [out_of_date_check];
    - [status/commands/status_com.py]: the [status] command.

    Python exceptions are an error monad with a log (the calls to
    [log.warning] and [log.debug] are the only state the module writes);
    the command is a function from its collaborators to the list of the
    actions it performs, in order.  Libraries that are not part of the
    repository (Red's [VersionInfo], [tabulate], [box], [humanize_list],
    [humanize_timedelta], the HTTP endpoints) are section variables. *)

From Stdlib Require Import ZArith String Ascii List DecimalString Lia.
From stdpp Require Import base option strings gmap list.
Import ListNotations.
Local Open Scope string_scope.

(** ** Python basics: exceptions, truthiness, logging *)

Module Py.

(** The subclasses of [Exception] the modelled code can meet.  All of them
    are caught by [except Exception]; [BaseException]s that are not
    [Exception]s (task cancellation, interpreter exit) are outside the
    model. *)
Inductive Exn : Type :=
| ClientError                 (* aiohttp: the connection failed *)
| TimeoutError                (* the request timed out *)
| JSONDecodeError             (* the body is not JSON *)
| KeyError (key : string)     (* d[key] on a dict without key *)
| ValueError                  (* VersionInfo.from_str on a bad string *)
| FileNotFoundError           (* open() on a missing file *)
| OtherException (name : string).

Inductive result (A : Type) : Type :=
| Ok (a : A)
| Raise (e : Exn).
Arguments Ok {A} a.
Arguments Raise {A} e.

#[global] Instance result_ret : MRet result := fun A a => Ok a.
#[global] Instance result_bind : MBind result := fun A B k r =>
  match r with
  | Ok a => k a
  | Raise e => Raise e
  end.

Inductive Level : Type := DEBUG | WARNING.

Record LogRecord : Type := mkLog {
  levelno : Level;
  msg : string;
  exc_info : option Exn
}.

(** A computation that may log and may raise. *)
Definition M (A : Type) : Type := list LogRecord -> result A * list LogRecord.

#[global] Instance M_ret : MRet M := fun A a l => (Ok a, l).
#[global] Instance M_bind : MBind M := fun A B k m l =>
  match m l with
  | (Ok a, l') => k a l'
  | (Raise e, l') => (Raise e, l')
  end.

Definition lift {A : Type} (r : result A) : M A := fun l => (r, l).

Definition log (lv : Level) (m : string) (exc : option Exn) : M unit :=
  fun l => (Ok tt, (l ++ [mkLog lv m exc])%list).

(** [try: body / except Exception as e: handler e]. *)
Definition try_except {A : Type} (body : M A) (handler : Exn -> M A) : M A :=
  fun l =>
    match body l with
    | (Ok a, l') => (Ok a, l')
    | (Raise e, l') => handler e l'
    end.

(** Run from an empty log. *)
Definition run {A : Type} (m : M A) : result A * list LogRecord := m [].

(** [d[k]]: raises [KeyError] when the key is absent. *)
Definition getitem {A : Type} (d : gmap string A) (k : string) : result A :=
  match d !! k with
  | Some v => Ok v
  | None => Raise (KeyError k)
  end.

(** [s[:7]] (on the ASCII strings the code slices). *)
Definition slice7 (s : string) : string := String.substring 0 7 s.

(** Truth value testing, as [if x:] and [not x] use it. *)
Class Truthy (A : Type) := truthy : A -> bool.

#[global] Instance bool_truthy : Truthy bool := fun b => b.
#[global] Instance string_truthy : Truthy string := fun s =>
  match s with
  | EmptyString => false
  | String _ _ => true
  end.
#[global] Instance list_truthy {A : Type} : Truthy (list A) := fun l =>
  match l with
  | [] => false
  | _ :: _ => true
  end.
#[global] Instance Z_truthy : Truthy Z := fun z => negb (Z.eqb z 0).
#[global] Instance option_truthy {A : Type} `{Truthy A} : Truthy (option A) := fun o =>
  match o with
  | None => false
  | Some a => truthy a
  end.

(** The line feed of the f-strings ("\n"). *)
Definition NL : string := String (ascii_of_nat 10) EmptyString.

(** [str(n)] for a length. *)
Definition str_of_nat (n : nat) : string := NilEmpty.string_of_uint (Nat.to_uint n).

End Py.
Import Py.

(** ** vexutils/meta.py *)

(** Red's [VersionInfo] (redbot.core): parsing and the two comparisons the
    class defines.  [from_str] raises [ValueError] on a string that is not
    a version; [a >= b] is answered by the reflected [b <= a]. *)
Class VersionInfoOps (V : Type) : Type := {
  from_str : string -> option V;
  ver_lt : V -> V -> bool;
  ver_le : V -> V -> bool
}.

Definition ver_ge {V : Type} `{VersionInfoOps V} (a b : V) : bool := ver_le b a.

(** Modelled from the spec: [consts.GREEN_CIRCLE] and [consts.RED_CIRCLE]
    (vexutils/consts.py is not among the sources): the fixed green glyph and
    the fixed red glyph of the status column. *)
Definition GREEN_CIRCLE : string := "🟢".
Definition RED_CIRCLE : string := "🔴".

(** The packaged [commit.json], as [open] and [json.load] find it.  Its
    object maps keys to strings (the interface gives [latest_commit] as a
    string). *)
Inductive Sidecar : Type :=
| SidecarMissing
| SidecarMalformed
| SidecarObject (data : gmap string string).

(** A value of [extras]: [Union[str, bool]]. *)
Inductive ExtraValue : Type :=
| ExtraBool (b : bool)
| ExtraStr (s : string).

Record VexLoop : Type := mkVexLoop {
  friendly_name : string;
  integrity : bool
}.

(** [cog_updated] and its two siblings: a [bool] from the comparison, the
    string ["Unknown"] from the handler. *)
Inductive Flag : Type :=
| FlagBool (b : bool)
| FlagStr (s : string).

#[global] Instance Flag_truthy : Truthy Flag := fun f =>
  match f with
  | FlagBool b => truthy b
  | FlagStr s => truthy s
  end.

Section Meta.

Context {VersionInfo : Type} `{VersionInfoOps VersionInfo}.

(** [class Vers(NamedTuple)]. *)
Record Vers : Type := mkVers {
  cogs : gmap string VersionInfo;
  utils : string;
  red : VersionInfo
}.

(** [class UnknownVers(NamedTuple)], with its two defaults. *)
Record UnknownVers : Type := mkUnknownVers {
  unknown_cogs : gmap string string;
  unknown_utils : string;
  unknown_red : string
}.

Definition UnknownVers_of (c : gmap string string) : UnknownVers :=
  mkUnknownVers c "Unknown" "Unknown".

(** What [latest] is bound to after the [try] statement. *)
Inductive Latest : Type :=
| LatestVers (v : Vers)
| LatestUnknown (u : UnknownVers).

(** A cell handed to [tabulate]. *)
Inductive Cell : Type :=
| CellStr (s : string)
| CellVer (v : VersionInfo)
| CellNone.

(** What the module reads from outside: the sidecar, Red's own version and
    the bodies of the two HTTP responses ([r.json()]), each of which may
    raise instead. *)
Record MetaEnv : Type := mkMetaEnv {
  commit_json : Sidecar;
  cur_red_version : VersionInfo;
  vers_api : result (gmap string string);
  pypi_api : result (gmap string (gmap string string))
}.

Variable env : MetaEnv.
Variable lower : string -> string.
Variable tabulate : list (list Cell) -> list string -> string -> string.
Variable box : string -> string.

Definition from_str_exn (s : string) : result VersionInfo :=
  match from_str s with
  | Some v => Ok v
  | None => Raise ValueError
  end.

(** The dict comprehension of [_get_latest_vers]: every value is parsed,
    and one bad value raises. *)
Definition parse_cogs (latest_cogs : gmap string string) : result (gmap string VersionInfo) :=
  if decide (map_Forall (fun _ ver => is_Some (from_str ver)) latest_cogs)
  then Ok (omap from_str latest_cogs)
  else Raise ValueError.

Definition _get_latest_vers : M Vers :=
  data ← lift (vers_api env);
  utils_raw ← lift (getitem data "utils");
  let latest_utils := slice7 utils_raw in
  let latest_cogs := delete "utils" data in
  data ← lift (pypi_api env);
  latest_red ← lift (from_str_exn
    (default "0.0.0" (default ∅ (data !! "info") !! "version")));
  obj_latest_cogs ← lift (parse_cogs latest_cogs);
  mret (mkVers obj_latest_cogs latest_utils latest_red).

Definition load_commit_json : result (gmap string string) :=
  match commit_json env with
  | SidecarMissing => Raise FileNotFoundError
  | SidecarMalformed => Raise JSONDecodeError
  | SidecarObject data => Ok data
  end.

Definition _get_current_vers (curr_cog_ver qual_name : string) : M Vers :=
  data ← lift load_commit_json;
  let latest_utils := slice7 (default "Unknown" (data !! "latest_commit")) in
  v ← lift (from_str_exn curr_cog_ver);
  mret (mkVers {[ lower qual_name := v ]} latest_utils (cur_red_version env)).

(** Lines 85-87 of [format_info]: the three comparisons. *)
Definition compare_vers (current latest : Vers) (cog_name : string)
  : result (bool * bool * bool) :=
  c ← getitem (cogs current) cog_name;
  l ← getitem (cogs latest) cog_name;
  let cog_updated := ver_ge c l in
  let utils_updated := String.eqb (utils current) (utils latest) in
  let red_updated := ver_ge (red current) (red latest) in
  mret (cog_updated, utils_updated, red_updated).

(** The body of the [try] statement of [format_info] (lines 83-87). *)
Definition fetch_and_compare (current : Vers) (cog_name : string)
  : M (Flag * Flag * Flag * Latest) :=
  latest ← _get_latest_vers;
  '(cog_updated, utils_updated, red_updated) ← lift (compare_vers current latest cog_name);
  mret (FlagBool cog_updated, FlagBool utils_updated, FlagBool red_updated,
        LatestVers latest).

(** The [try] statement of [format_info] (lines 82-91). *)
Definition reconcile (current : Vers) (cog_name : string)
  : M (Flag * Flag * Flag * Latest) :=
  try_except
    (fetch_and_compare current cog_name)
    (fun e =>
       _ ← log WARNING "Unable to parse versions." (Some e);
       mret (FlagStr "Unknown", FlagStr "Unknown", FlagStr "Unknown",
             LatestUnknown (UnknownVers_of {[ cog_name := "Unknown" ]}))).

Definition circle {A : Type} `{Truthy A} (x : A) : string :=
  if truthy x then GREEN_CIRCLE else RED_CIRCLE.

Definition opt_cell {A : Type} (f : A -> Cell) (o : option A) : Cell :=
  match o with
  | Some a => f a
  | None => CellNone
  end.

Definition latest_cog_cell (latest : Latest) (cog_name : string) : Cell :=
  match latest with
  | LatestVers v => opt_cell CellVer (cogs v !! cog_name)
  | LatestUnknown u => opt_cell CellStr (unknown_cogs u !! cog_name)
  end.

Definition latest_utils_cell (latest : Latest) : Cell :=
  match latest with
  | LatestVers v => CellStr (utils v)
  | LatestUnknown u => CellStr (unknown_utils u)
  end.

Definition latest_red_cell (latest : Latest) : Cell :=
  match latest with
  | LatestVers v => CellVer (red v)
  | LatestUnknown u => CellStr (unknown_red u)
  end.

(** The comparison table (lines 94-113). *)
Definition versions_table (current : Vers) (latest : Latest) (cog_name : string)
    (cog_updated utils_updated red_updated : Flag) : list (list Cell) :=
  [ [ CellStr "This Cog";
      opt_cell CellVer (cogs current !! cog_name);
      latest_cog_cell latest cog_name;
      CellStr (circle cog_updated) ];
    [ CellStr "Bundled Utils";
      CellStr (utils current);
      latest_utils_cell latest;
      CellStr (circle utils_updated) ];
    [ CellStr "Red";
      CellVer (red current);
      latest_red_cell latest;
      CellStr (circle red_updated) ] ].

(** The update instructions (lines 114-122). *)
Definition update_msg_of (clean_prefix : string)
    (cog_updated utils_updated red_updated : Flag) : string :=
  let update_msg := NL in
  let update_msg :=
    if negb (truthy cog_updated)
    then update_msg +:+ "To update this cog, use the `" +:+ clean_prefix
           +:+ "cog update` command." +:+ NL
    else update_msg in
  let update_msg :=
    if negb (truthy utils_updated)
    then update_msg +:+ "To update the bundled utils, use the `" +:+ clean_prefix
           +:+ "cog update` command." +:+ NL
    else update_msg in
  if negb (truthy red_updated)
  then update_msg +:+ "To update Red, see https://docs.discord.red/en/stable/update_red.html"
         +:+ NL
  else update_msg.

(** The second table (lines 124-138): the loops, then the extras, with an
    empty row between them when both are there. *)
Definition data_rows (extras : list (string * ExtraValue)) (loops : list VexLoop)
  : list (list Cell) :=
  let data := map (fun loop => [CellStr (friendly_name loop); CellStr (circle (integrity loop))]) loops in
  if truthy extras then
    let data := if truthy data then (data ++ [[]])%list else data in
    (data ++ map (fun '(key, value) =>
                   let str_value :=
                     match value with
                     | ExtraBool b => circle b
                     | ExtraStr s => s
                     end in
                   [CellStr key; CellStr str_value]) extras)%list
  else data.

(** A column of a table, as a reader of the rendered table sees it. *)
Definition column (n : nat) (rows : list (list Cell)) : list Cell :=
  map (fun row => nth n row CellNone) rows.

(** What [format_info] has built when it starts rendering. *)
Record Report : Type := mkReport {
  rep_start : string;
  rep_versions : list (list Cell);
  rep_update_msg : string;
  rep_data : list (list Cell)
}.

(** Lines 80-138. *)
Definition format_info_report (clean_prefix qualified_name cog_version : string)
    (extras : list (string * ExtraValue)) (loops : list VexLoop) : M Report :=
  let cog_name := lower qualified_name in
  current ← _get_current_vers cog_version qualified_name;
  '(cog_updated, utils_updated, red_updated, latest) ← reconcile current cog_name;
  let start := qualified_name +:+ " by Vexed." +:+ NL
                 +:+ "<https://github.com/Vexed01/Vex-Cogs>" +:+ NL +:+ NL in
  mret (mkReport start
          (versions_table current latest cog_name cog_updated utils_updated red_updated)
          (update_msg_of clean_prefix cog_updated utils_updated red_updated)
          (data_rows extras loops)).

(** Lines 140-147. *)
Definition render (r : Report) : string :=
  let boxed :=
    box (tabulate (rep_versions r)
           [""; "Your Version"; "Latest version"; "Up to date?"] "simple") in
  let boxed := boxed +:+ rep_update_msg r in
  let boxed :=
    if truthy (rep_data r) then boxed +:+ box (tabulate (rep_data r) [] "plain")
    else boxed in
  rep_start r +:+ boxed.

Definition format_info (clean_prefix qualified_name cog_version : string)
    (extras : list (string * ExtraValue)) (loops : list VexLoop) : M string :=
  r ← format_info_report clean_prefix qualified_name cog_version extras loops;
  mret (render r).

(** [out_of_date_check]; the lock around the fetch serialises callers and
    does not change what one call computes. *)
Definition out_of_date_check (cogname currentver : string) : M unit :=
  try_except
    (vers ← _get_latest_vers;
     cur ← lift (from_str_exn currentver);
     lat ← lift (getitem (cogs vers) cogname);
     if ver_lt cur lat
     then log WARNING
            ("Your " +:+ cogname +:+ " cog, from Vex, is out of date. You can update your cogs with the "
               +:+ "'cog update' command in Discord.") None
     else log DEBUG (cogname +:+ " cog is up to date") None)
    (fun e =>
       log DEBUG
         ("Something went wrong checking if " +:+ cogname +:+ " cog is up to date. See below.")
         (Some e)).

End Meta.

(** ** status/commands/status_com.py *)

(** [IncidentData] (status/objects): one incident or one scheduled
    maintenance of a status page.  [scheduled_for] is a timestamp; an
    instance is an ordinary object, hence always true in [if not to_send]. *)
Record IncidentData : Type := mkIncidentData {
  title : string;
  link : string;
  scheduled_for : option Z;
  fields : list (string * string)
}.

(** [Update(incidentdata, new_fields)]. *)
Record Update : Type := mkUpdate {
  incidentdata : IncidentData;
  new_fields : list (string * string)
}.

(** What [ServiceConverter] resolved the argument to. *)
Record Service : Type := mkService {
  name : string;
  friendly : string;
  id : string
}.

(** The part of [commands.Context] the command reads. *)
Record Ctx : Type := mkCtx {
  author_id : Z;
  guild_id : Z;
  channel_id : Z
}.

(** What [bot.get_channel] may return besides [None]. *)
Inductive Channel : Type :=
| TextChannel (mention : string)
| OtherChannel.

(** A value of the channel map given to [SendUpdate.send]. *)
Record ChannelSettings : Type := mkChannelSettings {
  mode : string;
  webhook : bool;
  edit_id : list (string * Z)
}.

(** What the command does to the outside, in the order it does it. *)
Inductive Action : Type :=
| Send (content : string) (delete_after : option Z)
| TriggerTyping
| Summary (service_id : string)
| ProcessJson (key : string)
| SendUpdate_send (update : Update) (service : string) (dispatch force : bool)
    (channels : list (Z * ChannelSettings))
| Sleep.

(** The three kinds of action the gates are there to prevent. *)
Definition is_fetch (a : Action) : bool :=
  match a with
  | Summary _ => true
  | _ => false
  end.

Definition is_parse (a : Action) : bool :=
  match a with
  | ProcessJson _ => true
  | _ => false
  end.

Definition is_dispatch (a : Action) : bool :=
  match a with
  | SendUpdate_send _ _ _ _ _ => true
  | _ => false
  end.

Section StatusCom.

Variable Payload : Type.

(** The collaborators of the cog. *)
Record StatusEnv : Type := mkStatusEnv {
  service_cooldown_handle : Z -> string -> option Z;
  service_restrictions_get_guild : Z -> string -> option (list Z);
  bot_get_channel : Z -> option Channel;
  statusapi_summary : string -> Payload * string * Z;
  process_json : Payload -> string -> list IncidentData;
  datetime_now : Z;
  humanize_list : list string -> string;
  humanize_timedelta : Z -> string
}.

Variable env : StatusEnv.

(** Lines 31-35. *)
Definition cooldown_reply (ctx : Ctx) (service : Service) : option Action :=
  let time_until := service_cooldown_handle env (author_id ctx) (name service) in
  if truthy time_until then
    let message := "Status updates for " +:+ friendly service
                     +:+ " are on cooldown. Try again in "
                     +:+ humanize_timedelta env (default 0%Z time_until) +:+ "." in
    Some (Send message time_until)
  else None.

(** [channel.mention for channel in channels if isinstance(channel, TextChannel)]. *)
Definition text_mentions (channels : list (option Channel)) : list string :=
  omap (fun c => match c with
                 | Some (TextChannel m) => Some m
                 | _ => None
                 end) channels.

(** Lines 37-48. *)
Definition restriction_reply (ctx : Ctx) (service : Service) : option Action :=
  let restrictions := service_restrictions_get_guild env (guild_id ctx) (name service) in
  if truthy restrictions then
    let channels := map (bot_get_channel env) (default [] restrictions) in
    let channel_list := humanize_list env (text_mentions channels) in
    if truthy channel_list then
      Some (Send ("You can check updates for " +:+ friendly service
                    +:+ " in " +:+ channel_list +:+ ".") None)
    else None
  else None.

(** Lines 60-62. *)
Definition scheduled_incidentdata_list (now : Z) (all_scheduled : list IncidentData)
  : list IncidentData :=
  List.filter (fun i => match scheduled_for i with
                        | Some t => (t <? now)%Z
                        | None => false
                        end) all_scheduled.

(** Lines 64-73: [(to_send, other_incidents, other_scheduled)]. *)
Definition select (incidents scheduled : list IncidentData)
  : option IncidentData * list IncidentData * list IncidentData :=
  match incidents, scheduled with
  | to_send :: other_incidents, _ => (Some to_send, other_incidents, [])
  | [], to_send :: other_scheduled => (Some to_send, [], other_scheduled)
  | [], [] => (None, [], [])
  end.

(** Lines 93-106. *)
Definition others_msg (other_incidents other_scheduled : list IncidentData) : string :=
  let msg := "" in
  let msg :=
    if truthy other_incidents then
      fold_left (fun msg incident =>
                   msg +:+ title incident +:+ " (<" +:+ link incident +:+ ">)" +:+ NL)
        other_incidents
        (msg +:+ str_of_nat (length other_incidents)
           +:+ " other incidents are live at the moment:" +:+ NL)
    else msg in
  if truthy other_scheduled then
    fold_left (fun msg incident =>
                 msg +:+ title incident +:+ " (<" +:+ link incident +:+ ">)")
      other_scheduled
      (msg +:+ (NL +:+ str_of_nat (length other_scheduled)
                  +:+ " other scheduled maintenance events are live at the "
                  +:+ "moment:" +:+ NL))
  else msg.

Definition NO_LIVE_INCIDENTS : string := "✅ There are currently no live incidents.".

(** Lines 57-109. *)
Definition report_incidents (ctx : Ctx) (service : Service) (summary : Payload)
  : list Action :=
  let incidents_incidentdata_list := process_json env summary "incidents" in
  let all_scheduled := process_json env summary "scheduled" in
  let now := datetime_now env in
  let '(to_send, other_incidents, other_scheduled) :=
    select incidents_incidentdata_list (scheduled_incidentdata_list now all_scheduled) in
  [ProcessJson "incidents"; ProcessJson "scheduled"] ++
  match to_send with
  | None => [Send NO_LIVE_INCIDENTS None]
  | Some to_send =>
      let update := mkUpdate to_send (fields to_send) in
      let msg := others_msg other_incidents other_scheduled in
      [SendUpdate_send update (name service) false true
         [(channel_id ctx, mkChannelSettings "all" false [])];
       Sleep] ++
      (if truthy msg then [Send msg None] else [])
  end.

(** The command. *)
Definition status (ctx : Ctx) (service : Service) : list Action :=
  match cooldown_reply ctx service with
  | Some reply => [reply]
  | None =>
      match restriction_reply ctx service with
      | Some reply => [reply]
      | None =>
          let '(summary, etag, status) := statusapi_summary env (id service) in
          [TriggerTyping; Summary (id service)] ++
          (if negb (status =? 200)%Z then
             [Send ("Hmm, I can't get " +:+ friendly service
                      +:+ "'s status at the moment.") None]
           else report_incidents ctx service summary)
      end
  end.

End StatusCom.

Arguments service_cooldown_handle {Payload} _ _ _.
Arguments service_restrictions_get_guild {Payload} _ _ _.
Arguments bot_get_channel {Payload} _ _.
Arguments statusapi_summary {Payload} _ _.
Arguments process_json {Payload} _ _ _.
Arguments datetime_now {Payload} _.
Arguments humanize_list {Payload} _ _.
Arguments humanize_timedelta {Payload} _ _.
Arguments cooldown_reply {Payload} env ctx service.
Arguments restriction_reply {Payload} env ctx service.
Arguments report_incidents {Payload} env ctx service summary.
Arguments status {Payload} env ctx service.

(** One entry of a summary: the title and the link. *)
Definition summary_line (incident : IncidentData) : string :=
  title incident +:+ " (<" +:+ link incident +:+ ">)".

(** The call of [SendUpdate(...).send(...)] for a primary entry. *)
Definition dispatch_of (ctx : Ctx) (service : Service) (to_send : IncidentData) : Action :=
  SendUpdate_send (mkUpdate to_send (fields to_send)) (name service) false true
    [(channel_id ctx, mkChannelSettings "all" false [])].

(** The pieces of a message, put one after the other. *)
Definition concat_all (pieces : list string) : string :=
  fold_right String.append "" pieces.

(** ** Concrete collaborators, to run the definitions on inputs *)

Module Demo.

(** Versions [major.minor.micro], ordered lexicographically: the releases
    among Red's [VersionInfo]s. *)
Fixpoint split_on (sep : ascii) (acc : string) (s : string) : list string :=
  match s with
  | EmptyString => [acc]
  | String c s' =>
      if Ascii.eqb c sep then acc :: split_on sep "" s'
      else split_on sep (acc +:+ String c "") s'
  end.

Definition parse_num (s : string) : option N :=
  match s with
  | EmptyString => None
  | _ => N.of_uint <$> NilEmpty.uint_of_string s
  end.

Definition release_from_str (s : string) : option (N * N * N) :=
  match split_on "." "" s with
  | [a; b; c] =>
      x ← parse_num a; y ← parse_num b; z ← parse_num c; Some (x, y, z)
  | _ => None
  end.

Definition release_lt (a b : N * N * N) : bool :=
  let '(a1, a2, a3) := a in
  let '(b1, b2, b3) := b in
  ((a1 <? b1) || ((a1 =? b1) && ((a2 <? b2) || ((a2 =? b2) && (a3 <? b3)))))%N.

Definition release_le (a b : N * N * N) : bool := negb (release_lt b a).

#[global] Instance release_ops : VersionInfoOps (N * N * N) := {
  from_str := release_from_str;
  ver_lt := release_lt;
  ver_le := release_le
}.

(** [str.lower] on ASCII. *)
Definition lower_ascii (c : ascii) : ascii :=
  let n := nat_of_ascii c in
  if (65 <=? n)%nat && (n <=? 90)%nat then ascii_of_nat (n + 32) else c.

Fixpoint ascii_lower (s : string) : string :=
  match s with
  | EmptyString => EmptyString
  | String c s' => String (lower_ascii c) (ascii_lower s')
  end.

Definition join (sep : string) (l : list string) : string :=
  match l with
  | [] => ""
  | x :: xs => fold_left (fun acc y => acc +:+ sep +:+ y) xs x
  end.

Definition cell_text (c : Cell (VersionInfo := N * N * N)) : string :=
  match c with
  | CellStr s => s
  | CellVer (a, b, c) =>
      str_of_nat (N.to_nat a) +:+ "." +:+ str_of_nat (N.to_nat b) +:+ "."
        +:+ str_of_nat (N.to_nat c)
  | CellNone => ""
  end.

(** A plain rendering of a table: cells separated by two spaces, one row a
    line, the headers (when there are some) first. *)
Definition plain_tabulate (rows : list (list (Cell (VersionInfo := N * N * N))))
    (headers : list string) (tablefmt : string) : string :=
  let lines := map (fun row => join "  " (map cell_text row)) rows in
  join NL (if truthy headers then join "  " headers :: lines else lines).

Definition code_box (text : string) : string := "```" +:+ NL +:+ text +:+ NL +:+ "```".

(** [humanize_list(items, style="or")] for English. *)
Definition humanize_list_or (items : list string) : string :=
  match items with
  | [] => ""
  | [a] => a
  | [a; b] => a +:+ " or " +:+ b
  | _ => join ", " (removelast items) +:+ ", or " +:+ List.last items ""
  end.

(** [humanize_timedelta(seconds=n)] for English. *)
Definition humanize_timedelta_en (seconds : Z) : string :=
  let periods :=
    [("year", "years", 31536000); ("month", "months", 2592000);
     ("day", "days", 86400); ("hour", "hours", 3600);
     ("minute", "minutes", 60); ("second", "seconds", 1)]%Z in
  let '(strings, _) :=
    fold_left (fun '(strings, seconds) '(period_name, plural_period_name, period_seconds) =>
                 if (period_seconds <=? seconds)%Z then
                   let period_value := (seconds / period_seconds)%Z in
                   let unit := if (1 <? period_value)%Z then plural_period_name
                               else period_name in
                   ((strings ++ [str_of_nat (Z.to_nat period_value) +:+ " " +:+ unit])%list,
                    (seconds mod period_seconds)%Z)
                 else (strings, seconds))
      periods ([], seconds) in
  join ", " strings.

(** An installation whose sidecar is in place, with the remote sources
    answering. *)
Definition meta_up : MetaEnv := {|
  commit_json := SidecarObject {[ "latest_commit" := "abcdef1234567890" ]};
  cur_red_version := (3, 4, 0)%N;
  vers_api := Ok (<[ "utils" := "abcdef2999999999" ]>
                    (<[ "status" := "2.3.0" ]> {[ "ghissues" := "1.4.2" ]}));
  pypi_api := Ok {[ "info" := {[ "version" := "3.4.1" ]} ]}
|}.

(** The same installation while the first-party API times out. *)
Definition meta_down : MetaEnv := {|
  commit_json := SidecarObject {[ "latest_commit" := "abcdef1234567890" ]};
  cur_red_version := (3, 4, 0)%N;
  vers_api := Raise TimeoutError;
  pypi_api := Ok {[ "info" := {[ "version" := "3.4.1" ]} ]}
|}.

(** An installation packaged without [commit.json]. *)
Definition meta_no_sidecar : MetaEnv := {|
  commit_json := SidecarMissing;
  cur_red_version := (3, 4, 0)%N;
  vers_api := Raise TimeoutError;
  pypi_api := Ok {[ "info" := {[ "version" := "3.4.1" ]} ]}
|}.

(** An installation whose [commit.json] is the empty object. *)
Definition meta_no_commit : MetaEnv := {|
  commit_json := SidecarObject ∅;
  cur_red_version := (3, 4, 0)%N;
  vers_api := Raise TimeoutError;
  pypi_api := Ok {[ "info" := {[ "version" := "3.4.1" ]} ]}
|}.

(** A status page as [process_json] reads it. *)
Record Page : Type := mkPage {
  page_incidents : list IncidentData;
  page_scheduled : list IncidentData
}.

Definition read_page (p : Page) (key : string) : list IncidentData :=
  if String.eqb key "incidents" then page_incidents p
  else if String.eqb key "scheduled" then page_scheduled p
  else [].

(** A guild in which channel 10 is a text channel and channel 11 is gone. *)
Definition get_channel (c : Z) : option Channel :=
  if (c =? 10)%Z then Some (TextChannel "<#10>") else None.

Definition status_env (cooldown : option Z) (restrictions : option (list Z))
    (code : Z) (page : Page) : StatusEnv Page := {|
  service_cooldown_handle := fun _ _ => cooldown;
  service_restrictions_get_guild := fun _ _ => restrictions;
  bot_get_channel := get_channel;
  statusapi_summary := fun _ => (page, "etag", code);
  process_json := read_page;
  datetime_now := 1000;
  humanize_list := humanize_list_or;
  humanize_timedelta := humanize_timedelta_en
|}.

Definition discord : Service := mkService "discord" "Discord" "discord".

(** An invocation by user 7 in channel 10 of guild 1. *)
Definition ctx : Ctx := mkCtx 7 1 10.

Definition quiet : Page := mkPage [] [].

Definition maintenance_A : IncidentData :=
  mkIncidentData "A" "https://a" (Some 100%Z) [("Status", "In progress")].
Definition maintenance_B : IncidentData :=
  mkIncidentData "B" "https://b" (Some 200%Z) [].
Definition maintenance_C : IncidentData :=
  mkIncidentData "C" "https://c" (Some 300%Z) [].
Definition maintenance_later : IncidentData :=
  mkIncidentData "D" "https://d" (Some 2000%Z) [].

(** No incident; three maintenances that have begun and one that has not. *)
Definition under_maintenance : Page :=
  mkPage [] [maintenance_A; maintenance_later; maintenance_B; maintenance_C].

Definition outage_A : IncidentData := mkIncidentData "X" "https://x" None [].
Definition outage_B : IncidentData := mkIncidentData "Y" "https://y" None [].
Definition outage_C : IncidentData := mkIncidentData "Z" "https://z" None [].

(** Three incidents, and the maintenances above. *)
Definition outages : Page :=
  mkPage [outage_A; outage_B; outage_C] (page_scheduled under_maintenance).

(** The registry answers without a version. *)
Definition meta_no_registry_version : MetaEnv := {|
  commit_json := SidecarObject {[ "latest_commit" := "abcdef1234567890" ]};
  cur_red_version := (3, 4, 0)%N;
  vers_api := Ok (<[ "utils" := "abcdef2999999999" ]>
                    (<[ "status" := "2.3.0" ]> {[ "ghissues" := "1.4.2" ]}));
  pypi_api := Ok {[ "info" := ∅ ]}
|}.

(** The remote list has one entry that is not a version. *)
Definition meta_bad_entry : MetaEnv := {|
  commit_json := SidecarObject {[ "latest_commit" := "abcdef1234567890" ]};
  cur_red_version := (3, 4, 0)%N;
  vers_api := Ok (<[ "utils" := "abcdef2999999999" ]>
                    (<[ "status" := "2.3.0" ]> {[ "ghissues" := "latest" ]}));
  pypi_api := Ok {[ "info" := {[ "version" := "3.4.1" ]} ]}
|}.

(** No incident, and one maintenance that has not begun. *)
Definition upcoming : Page := mkPage [] [maintenance_later].

End Demo.

(** * Properties *)

(** Unfolds the two monads down to matches on outcomes. *)
Ltac unfold_M :=
  unfold run, mbind, mret, M_bind, M_ret, result_bind, result_ret, lift,
    try_except, log in *.

Section MetaFacts.

Context {VersionInfo : Type} `{VersionInfoOps VersionInfo}.
Variable env : MetaEnv (VersionInfo := VersionInfo).
Variable lower : string -> string.
Variable tabulate : list (list (Cell (VersionInfo := VersionInfo))) -> list string -> string -> string.
Variable box : string -> string.

(** Neither reader writes to the log. *)
Lemma _get_latest_vers_log (l : list LogRecord) :
  _get_latest_vers env l = (fst (run (_get_latest_vers env)), l).
Proof.
  unfold _get_latest_vers. unfold_M.
  destruct (vers_api env) as [data|e]; [|reflexivity].
  destruct (getitem data "utils") as [u|e]; [|reflexivity].
  destruct (pypi_api env) as [data'|e]; [|reflexivity].
  destruct (from_str_exn _) as [r|e]; [|reflexivity].
  destruct (parse_cogs _) as [c|e]; reflexivity.
Qed.

Lemma _get_current_vers_log (curr_cog_ver qual_name : string) (l : list LogRecord) :
  _get_current_vers env lower curr_cog_ver qual_name l
  = (fst (run (_get_current_vers env lower curr_cog_ver qual_name)), l).
Proof.
  unfold _get_current_vers. unfold_M.
  destruct load_commit_json as [data|e]; [|reflexivity].
  destruct (from_str_exn _) as [r|e]; reflexivity.
Qed.

Lemma fetch_and_compare_log (current : Vers) (cog_name : string) (l : list LogRecord) :
  fetch_and_compare env current cog_name l
  = (fst (run (fetch_and_compare env current cog_name)), l).
Proof.
  unfold fetch_and_compare. unfold_M.
  rewrite (_get_latest_vers_log l), (_get_latest_vers_log []).
  destruct (fst _) as [latest|e]; simpl; [|reflexivity].
  destruct (compare_vers current latest cog_name) as [[[a b] c]|e]; reflexivity.
Qed.

(** The current versions always list the cog under its lowered name. *)
Lemma _get_current_vers_cogs (curr_cog_ver qual_name : string) (current : Vers) :
  fst (run (_get_current_vers env lower curr_cog_ver qual_name)) = Ok current ->
  exists v, from_str curr_cog_ver = Some v /\ cogs current = {[ lower qual_name := v ]}.
Proof.
  unfold _get_current_vers, from_str_exn. unfold_M.
  destruct load_commit_json as [data|e]; [|discriminate].
  destruct (from_str curr_cog_ver) as [v|]; [|discriminate].
  simpl. intros [= <-]. exists v. split; reflexivity.
Qed.

(** Both identifiers of the shared utils are prefixes of at most seven
    characters. *)
Lemma slice7_length (s : string) : String.length (slice7 s) <= 7.
Proof.
  unfold slice7.
  assert (Hgen : forall n t, String.length (String.substring 0 n t) <= n).
  { induction n as [|n IH]; intros [|c t]; simpl; try lia.
    specialize (IH t). lia. }
  apply Hgen.
Qed.

Lemma _get_latest_vers_utils (latest : Vers) :
  fst (run (_get_latest_vers env)) = Ok latest ->
  exists data raw, vers_api env = Ok data /\ data !! "utils" = Some raw
                   /\ utils latest = slice7 raw.
Proof.
  unfold _get_latest_vers, getitem. unfold_M.
  destruct (vers_api env) as [data|e]; [|discriminate].
  destruct (data !! "utils") as [raw|] eqn:Hraw; [|discriminate].
  destruct (pypi_api env) as [data'|e]; [|discriminate].
  destruct (from_str_exn _) as [r|e]; [|discriminate].
  destruct (parse_cogs _) as [c|e]; [|discriminate].
  simpl. intros [= <-]. exists data, raw. auto.
Qed.

(** C2.  For every pair of version sets and every name present in both,
    the comparison yields exactly three booleans: the cog is up to date iff
    its current version is [>=] the latest under [VersionInfo]'s ordering,
    the bundled utils are up to date iff the two identifiers are the same
    string, and Red is up to date iff the running version is [>=] the
    latest one. *)
Theorem compare_vers_three_axes (current latest : Vers) (cog_name : string)
    (c l : VersionInfo) :
  cogs current !! cog_name = Some c ->
  cogs latest !! cog_name = Some l ->
  exists cog_updated utils_updated red_updated : bool,
    compare_vers current latest cog_name = Ok (cog_updated, utils_updated, red_updated)
    /\ (cog_updated = true <-> ver_ge c l = true)
    /\ (utils_updated = true <-> utils current = utils latest)
    /\ (red_updated = true <-> ver_ge (red current) (red latest) = true).
Proof.
  intros Hc Hl.
  exists (ver_ge c l), (String.eqb (utils current) (utils latest)),
    (ver_ge (red current) (red latest)).
  split; [|split; [reflexivity|split; [apply String.eqb_eq|reflexivity]]].
  unfold compare_vers, getitem. rewrite Hc, Hl. reflexivity.
Qed.

(** When the fetch succeeds and the cog is listed, [format_info] keeps
    these three booleans and the fetched versions, and logs nothing. *)
Lemma reconcile_fetched (current latest : Vers) (cog_name : string)
    (cog_updated utils_updated red_updated : bool) :
  fst (run (_get_latest_vers env)) = Ok latest ->
  compare_vers current latest cog_name = Ok (cog_updated, utils_updated, red_updated) ->
  run (reconcile env current cog_name)
  = (Ok (FlagBool cog_updated, FlagBool utils_updated, FlagBool red_updated,
         LatestVers latest), []).
Proof.
  intros Hfetch Hcmp. pose proof (_get_latest_vers_log []) as Hlog.
  unfold reconcile, fetch_and_compare. unfold_M.
  rewrite Hlog, Hfetch, Hcmp. reflexivity.
Qed.

(** Whatever the [try] body raises is logged as a warning and replaced
    by the sentinel. *)
Lemma reconcile_raised (current : Vers) (cog_name : string) (e : Exn) :
  fst (run (fetch_and_compare env current cog_name)) = Raise e ->
  run (reconcile env current cog_name)
  = (Ok (FlagStr "Unknown", FlagStr "Unknown", FlagStr "Unknown",
         LatestUnknown (UnknownVers_of {[ cog_name := "Unknown" ]})),
     [mkLog WARNING "Unable to parse versions." (Some e)]).
Proof.
  intros Hraise. pose proof (fetch_and_compare_log current cog_name []) as Hlog.
  unfold reconcile. unfold_M. rewrite Hlog, Hraise. reflexivity.
Qed.

Lemma fetch_raises_body_raises (current : Vers) (cog_name : string) (e : Exn) :
  fst (run (_get_latest_vers env)) = Raise e ->
  fst (run (fetch_and_compare env current cog_name)) = Raise e.
Proof.
  intros Hfetch. pose proof (_get_latest_vers_log []) as Hlog.
  unfold fetch_and_compare. unfold_M. rewrite Hlog, Hfetch. reflexivity.
Qed.

(** C10 (as amended).  With a sidecar that is a JSON object without the
    key [latest_commit], and a current version that parses, the reader
    returns and the identifier of the bundled utils is the string
    ["Unknown"].  It raises exactly when the sidecar is missing or
    malformed, or when the current version does not parse. *)
Theorem _get_current_vers_outcomes (curr_cog_ver qual_name : string) :
  (forall (data : gmap string string) (v : VersionInfo),
      commit_json env = SidecarObject data ->
      data !! "latest_commit" = None ->
      from_str curr_cog_ver = Some v ->
      run (_get_current_vers env lower curr_cog_ver qual_name)
      = (Ok (mkVers {[ lower qual_name := v ]} "Unknown" (cur_red_version env)), []))
  /\ ((exists e, fst (run (_get_current_vers env lower curr_cog_ver qual_name)) = Raise e)
      <-> commit_json env = SidecarMissing
          \/ commit_json env = SidecarMalformed
          \/ from_str curr_cog_ver = None).
Proof.
  unfold _get_current_vers, load_commit_json, from_str_exn. unfold_M. split.
  - intros data v -> -> ->. reflexivity.
  - destruct (commit_json env) as [| |data]; simpl.
    + split; [auto|]. intros _. eexists; reflexivity.
    + split; [auto|]. intros _. eexists; reflexivity.
    + destruct (from_str curr_cog_ver) as [v|]; simpl.
      * split; [intros [e He]; discriminate|].
        intros [Hm|[Hm|Hm]]; discriminate.
      * split; [auto|]. intros _. eexists; reflexivity.
Qed.

(** C6.  [out_of_date_check] always returns, with one log record: a
    debug record carrying the exception when the fetch, the parsing of the
    current version or the lookup of the cog raised; otherwise a warning
    that names the cog when the current version is strictly below the
    latest one, and a debug record when it is not. *)
Theorem out_of_date_check_never_raises (cogname currentver : string) :
  let went_wrong e :=
    mkLog DEBUG
      ("Something went wrong checking if " +:+ cogname +:+ " cog is up to date. See below.")
      (Some e) in
  let out_of_date :=
    mkLog WARNING
      ("Your " +:+ cogname
         +:+ " cog, from Vex, is out of date. You can update your cogs with the "
         +:+ "'cog update' command in Discord.") None in
  let up_to_date := mkLog DEBUG (cogname +:+ " cog is up to date") None in
  exists record,
    run (out_of_date_check env cogname currentver) = (Ok tt, [record])
    /\ match fst (run (_get_latest_vers env)) with
       | Raise e => record = went_wrong e
       | Ok vers =>
           match from_str currentver, cogs vers !! cogname with
           | None, _ => record = went_wrong ValueError
           | Some _, None => record = went_wrong (KeyError cogname)
           | Some cur, Some lat =>
               record = if ver_lt cur lat then out_of_date else up_to_date
           end
       end.
Proof.
  intros went_wrong out_of_date up_to_date.
  pose proof (_get_latest_vers_log []) as Hlog.
  unfold out_of_date_check, from_str_exn, getitem. unfold_M. rewrite Hlog.
  destruct (fst (_get_latest_vers env [])) as [vers|e]; simpl.
  - destruct (from_str currentver) as [cur|]; simpl.
    + destruct (cogs vers !! cogname) as [lat|]; simpl.
      * destruct (ver_lt cur lat); eexists; split; reflexivity.
      * eexists; split; reflexivity.
    + eexists; split; reflexivity.
  - eexists; split; reflexivity.
Qed.

(** C1 (what the code does).  When the current versions were read and the
    fetch of the latest versions raises, [format_info] returns, one warning
    is logged, and the comparison table shows ["Unknown"] as the latest
    version of the three axes; the status column shows the green glyph on
    all three rows, and no update instruction is added. *)
Theorem format_info_fetch_raises_shows_green
    (clean_prefix qualified_name cog_version : string)
    (extras : list (string * ExtraValue)) (loops : list VexLoop)
    (current : Vers) (e : Exn) :
  fst (run (_get_current_vers env lower cog_version qualified_name)) = Ok current ->
  fst (run (_get_latest_vers env)) = Raise e ->
  exists r,
    run (format_info_report env lower clean_prefix qualified_name cog_version extras loops)
    = (Ok r, [mkLog WARNING "Unable to parse versions." (Some e)])
    /\ run (format_info env lower tabulate box clean_prefix qualified_name cog_version
              extras loops)
       = (Ok (render tabulate box r), [mkLog WARNING "Unable to parse versions." (Some e)])
    /\ column 2 (rep_versions r) = [CellStr "Unknown"; CellStr "Unknown"; CellStr "Unknown"]
    /\ column 3 (rep_versions r)
       = [CellStr GREEN_CIRCLE; CellStr GREEN_CIRCLE; CellStr GREEN_CIRCLE]
    /\ GREEN_CIRCLE <> "Unknown"
    /\ rep_update_msg r = NL.
Proof.
  intros Hcur Hfetch.
  pose proof (reconcile_raised current (lower qualified_name) e
                (fetch_raises_body_raises current (lower qualified_name) e Hfetch)) as Hrec.
  pose proof (_get_current_vers_log cog_version qualified_name []) as Hlog.
  unfold format_info, format_info_report. unfold_M.
  rewrite Hlog, Hcur, Hrec. simpl.
  eexists. split; [reflexivity|]. split; [reflexivity|].
  unfold column; simpl. rewrite lookup_singleton_eq. simpl.
  repeat split; try reflexivity. discriminate.
Qed.

(** C4 (as amended).  A failure of [_get_current_vers] (the sidecar is
    missing or malformed, or the current version does not parse) happens
    before the [try] statement and propagates to the caller, with nothing
    logged.  Once the current versions were read, [format_info] returns
    whatever happens next: when the fetch of the latest versions or the
    comparison raises, the exception is logged as one warning and the
    latest versions shown are the ["Unknown"] sentinel; when they do not,
    nothing is logged. *)
Theorem format_info_failures
    (clean_prefix qualified_name cog_version : string)
    (extras : list (string * ExtraValue)) (loops : list VexLoop) :
  let out :=
    run (format_info env lower tabulate box clean_prefix qualified_name cog_version
           extras loops) in
  let current_run := fst (run (_get_current_vers env lower cog_version qualified_name)) in
  (forall e, current_run = Raise e -> out = (Raise e, []))
  /\ (forall current, current_run = Ok current ->
      exists r,
        match fst (run (fetch_and_compare env current (lower qualified_name))) with
        | Ok _ => out = (Ok (render tabulate box r), [])
        | Raise e =>
            out = (Ok (render tabulate box r),
                   [mkLog WARNING "Unable to parse versions." (Some e)])
            /\ column 2 (rep_versions r)
               = [CellStr "Unknown"; CellStr "Unknown"; CellStr "Unknown"]
        end).
Proof.
  intros out current_run. subst out current_run.
  pose proof (_get_current_vers_log cog_version qualified_name []) as Hlog.
  split.
  - intros e Hcur. unfold format_info, format_info_report. unfold_M.
    rewrite Hlog, Hcur. reflexivity.
  - intros current Hcur.
    destruct (fst (run (fetch_and_compare env current (lower qualified_name))))
      as [[[[f1 f2] f3] latest]|e] eqn:Hbody.
    + pose proof (fetch_and_compare_log current (lower qualified_name) []) as Hblog.
      unfold format_info, format_info_report, reconcile. unfold_M.
      rewrite Hlog, Hcur, Hblog, Hbody. simpl. eexists. reflexivity.
    + pose proof (reconcile_raised current (lower qualified_name) e Hbody) as Hrec.
      unfold format_info, format_info_report. unfold_M.
      rewrite Hlog, Hcur, Hrec. simpl. eexists. split; [reflexivity|].
      unfold column; simpl. rewrite lookup_singleton_eq. reflexivity.
Qed.

End MetaFacts.

(** ** The status command *)

Lemma string_append_assoc (a b c : string) : (a +:+ b) +:+ c = a +:+ (b +:+ c).
Proof.
  induction a as [|x a IH]; [reflexivity|].
  change (String x ((a +:+ b) +:+ c) = String x (a +:+ (b +:+ c))).
  now rewrite IH.
Qed.

Lemma truthy_append_r (a b : string) : truthy b = true -> truthy (a +:+ b) = true.
Proof. destruct a; [exact (fun Hb => Hb)|reflexivity]. Qed.

Lemma truthy_append_l (a b : string) : truthy a = true -> truthy (a +:+ b) = true.
Proof. destruct a; [discriminate|reflexivity]. Qed.

Lemma string_append_nil_r (a : string) : a +:+ "" = a.
Proof.
  induction a as [|x a IH]; [reflexivity|].
  change (String x (a +:+ "") = String x a). now rewrite IH.
Qed.

(** A loop [for x in l: msg += f(x)] appends the pieces in order. *)
Lemma fold_left_append {A : Type} (f : A -> string) (l : list A) (init : string) :
  fold_left (fun msg x => msg +:+ f x) l init = init +:+ concat_all (map f l).
Proof.
  revert init. induction l as [|x l IH]; intros init.
  - symmetry. apply string_append_nil_r.
  - change (fold_left (fun msg x => msg +:+ f x) l (init +:+ f x)
            = init +:+ (f x +:+ concat_all (map f l))).
    rewrite IH. apply string_append_assoc.
Qed.

Section StatusFacts.

Variable Payload : Type.
Variable env : StatusEnv Payload.

(** C7.  The scheduled list the selection works on holds exactly the
    parsed scheduled entries that carry a start time strictly before the
    current time. *)
Theorem scheduled_list_begun_only (now : Z) (all_scheduled : list IncidentData)
    (i : IncidentData) :
  In i (scheduled_incidentdata_list now all_scheduled)
  <-> In i all_scheduled /\ exists t, scheduled_for i = Some t /\ (t < now)%Z.
Proof.
  unfold scheduled_incidentdata_list. rewrite filter_In.
  split; intros [Hin Hstart]; (split; [exact Hin|]).
  - destruct (scheduled_for i) as [t|]; [|discriminate].
    exists t. split; [reflexivity|]. now apply Z.ltb_lt.
  - destruct Hstart as (t & -> & Hlt). now apply Z.ltb_lt.
Qed.

(** C8.  On cooldown, the command sends the notice with the humanized
    remaining time, to be deleted when the cooldown ends, and does nothing
    else: the status page is not fetched. *)
Theorem status_on_cooldown (ctx : Ctx) (service : Service) (t : Z) :
  service_cooldown_handle env (author_id ctx) (name service) = Some t ->
  (0 < t)%Z ->
  status env ctx service
  = [Send ("Status updates for " +:+ friendly service
             +:+ " are on cooldown. Try again in "
             +:+ humanize_timedelta env t +:+ ".") (Some t)]
  /\ List.filter is_fetch (status env ctx service) = [].
Proof.
  intros Hcool Hpos.
  assert (Hstatus : status env ctx service
                    = [Send ("Status updates for " +:+ friendly service
                               +:+ " are on cooldown. Try again in "
                               +:+ humanize_timedelta env t +:+ ".") (Some t)]).
  { unfold status, cooldown_reply. rewrite Hcool.
    unfold truthy, option_truthy, truthy, Z_truthy.
    destruct (Z.eqb_spec t 0) as [->|_]; [lia|reflexivity]. }
  rewrite Hstatus. split; reflexivity.
Qed.

(** Whether or not a gate replies first, a status page that answers with
    a code other than 200 is never parsed and nothing is dispatched. *)
Lemma status_not_200_no_parse_no_dispatch (ctx : Ctx) (service : Service)
    (summary : Payload) (etag : string) (code : Z) :
  statusapi_summary env (id service) = (summary, etag, code) ->
  code <> 200%Z ->
  List.filter is_parse (status env ctx service) = []
  /\ List.filter is_dispatch (status env ctx service) = [].
Proof.
  intros Hsum Hcode. unfold status.
  destruct (cooldown_reply env ctx service) as [reply|] eqn:Hcool.
  { unfold cooldown_reply in Hcool.
    destruct (truthy _); [|discriminate]. injection Hcool as <-.
    split; reflexivity. }
  destruct (restriction_reply env ctx service) as [reply|] eqn:Hrestr.
  { unfold restriction_reply in Hrestr.
    destruct (truthy _); [|discriminate].
    destruct (truthy _); [|discriminate]. injection Hrestr as <-.
    split; reflexivity. }
  rewrite Hsum. destruct (Z.eqb_spec code 200) as [Heq|_]; [contradiction|].
  split; reflexivity.
Qed.

(** C9.  When the command gets to the status page (neither gate replies)
    and the page answers with a code other than 200, the command is
    exactly: typing, fetch, the apology.  The payload is not parsed and
    nothing is dispatched. *)
Theorem status_not_200 (ctx : Ctx) (service : Service)
    (summary : Payload) (etag : string) (code : Z) :
  cooldown_reply env ctx service = None ->
  restriction_reply env ctx service = None ->
  statusapi_summary env (id service) = (summary, etag, code) ->
  code <> 200%Z ->
  status env ctx service
  = [TriggerTyping; Summary (id service);
     Send ("Hmm, I can't get " +:+ friendly service
             +:+ "'s status at the moment.") None]
  /\ List.filter is_parse (status env ctx service) = []
  /\ List.filter is_dispatch (status env ctx service) = [].
Proof.
  intros Hcool Hrestr Hsum Hcode.
  assert (Hstatus : status env ctx service
                    = [TriggerTyping; Summary (id service);
                       Send ("Hmm, I can't get " +:+ friendly service
                               +:+ "'s status at the moment.") None]).
  { unfold status. rewrite Hcool, Hrestr, Hsum.
    destruct (Z.eqb_spec code 200) as [Heq|_]; [contradiction|reflexivity]. }
  rewrite Hstatus. repeat split; reflexivity.
Qed.

(** C5 (as amended).  Past the cooldown, in a guild with restrictions for
    the service of which at least one channel is a text channel (the
    humanized list of their mentions is not empty), the command names
    these channels and stops, whichever channel it was invoked in; with no
    restriction, or none that is a text channel, it goes on to fetch the
    status page. *)
Theorem status_restriction_gate (ctx : Ctx) (service : Service) :
  cooldown_reply env ctx service = None ->
  let restrictions :=
    service_restrictions_get_guild env (guild_id ctx) (name service) in
  let channel_list :=
    humanize_list env
      (text_mentions (map (bot_get_channel env) (default [] restrictions))) in
  (truthy restrictions = true -> channel_list <> "" ->
   status env ctx service
   = [Send ("You can check updates for " +:+ friendly service
              +:+ " in " +:+ channel_list +:+ ".") None])
  /\ (truthy restrictions = false \/ channel_list = "" ->
      exists rest,
        status env ctx service = TriggerTyping :: Summary (id service) :: rest).
Proof.
  intros Hcool restrictions channel_list.
  unfold status. rewrite Hcool. unfold restriction_reply.
  fold restrictions. fold channel_list. split.
  - intros -> Hne. destruct channel_list; [now elim Hne|reflexivity].
  - intros Hfree.
    assert (Hnone : (if truthy restrictions
                     then if truthy channel_list
                          then Some (Send ("You can check updates for " +:+ friendly service
                                             +:+ " in " +:+ channel_list +:+ ".") None)
                          else None
                     else None) = None).
    { destruct Hfree as [-> | ->]; [reflexivity|]. now destruct (truthy restrictions). }
    rewrite Hnone.
    destruct (statusapi_summary env (id service)) as [[summary etag] code].
    eexists. reflexivity.
Qed.

(** *** The selection (lines 64-109) *)

Lemma others_msg_incidents (other : IncidentData) (others : list IncidentData) :
  others_msg (other :: others) []
  = (str_of_nat (length (other :: others)) +:+ " other incidents are live at the moment:" +:+ NL)
      +:+ concat_all (map (fun i => summary_line i +:+ NL) (other :: others)).
Proof.
  unfold others_msg.
  change (truthy (other :: others)) with true.
  change (truthy (@nil IncidentData)) with false. cbv iota.
  rewrite (fold_left_append
             (fun i => title i +:+ " (<" +:+ link i +:+ ">)" +:+ NL)).
  f_equal. f_equal. apply map_ext. intros i. unfold summary_line.
  now rewrite !string_append_assoc.
Qed.

Lemma others_msg_scheduled (other : IncidentData) (others : list IncidentData) :
  others_msg [] (other :: others)
  = (NL +:+ str_of_nat (length (other :: others))
        +:+ " other scheduled maintenance events are live at the moment:" +:+ NL)
      +:+ concat_all (map summary_line (other :: others)).
Proof.
  unfold others_msg.
  change (truthy (other :: others)) with true.
  change (truthy (@nil IncidentData)) with false. cbv iota.
  rewrite (fold_left_append (fun i => title i +:+ " (<" +:+ link i +:+ ">)")).
  reflexivity.
Qed.

Lemma others_msg_truthy (other_incidents other_scheduled : list IncidentData) :
  truthy (others_msg other_incidents other_scheduled)
  = truthy other_incidents || truthy other_scheduled.
Proof.
  destruct other_incidents as [|a l], other_scheduled as [|b m].
  - reflexivity.
  - rewrite others_msg_scheduled. reflexivity.
  - rewrite others_msg_incidents.
    apply truthy_append_l, truthy_append_r. reflexivity.
  - unfold others_msg.
    change (truthy (a :: l)) with true. change (truthy (b :: m)) with true.
    cbv iota. rewrite fold_left_append.
    apply truthy_append_l, truthy_append_r. reflexivity.
Qed.

(** What the command does once the page is parsed.  A live incident comes
    first and is the only entry dispatched, the other incidents are counted
    and listed one per line; without incidents the first begun maintenance
    is dispatched, and the entries of the others follow the count without
    a line break between them; with neither, the confirmation is sent. *)
Lemma report_incidents_cases (ctx : Ctx) (service : Service) (summary : Payload) :
  report_incidents env ctx service summary
  = ProcessJson "incidents" :: ProcessJson "scheduled" ::
    match process_json env summary "incidents",
          scheduled_incidentdata_list (datetime_now env)
            (process_json env summary "scheduled") with
    | to_send :: others, _ =>
        dispatch_of ctx service to_send :: Sleep ::
        match others with
        | [] => []
        | _ :: _ =>
            [Send ((str_of_nat (length others)
                      +:+ " other incidents are live at the moment:" +:+ NL)
                     +:+ concat_all (map (fun i => summary_line i +:+ NL) others)) None]
        end
    | [], to_send :: others =>
        dispatch_of ctx service to_send :: Sleep ::
        match others with
        | [] => []
        | _ :: _ =>
            [Send ((NL +:+ str_of_nat (length others)
                       +:+ " other scheduled maintenance events are live at the moment:"
                       +:+ NL)
                     +:+ concat_all (map summary_line others)) None]
        end
    | [], [] => [Send NO_LIVE_INCIDENTS None]
    end.
Proof.
  unfold report_incidents.
  destruct (process_json env summary "incidents") as [|to_send others].
  - destruct (scheduled_incidentdata_list _ _) as [|to_send others]; [reflexivity|].
    cbn [select]. destruct others as [|other others]; [reflexivity|].
    rewrite others_msg_truthy, others_msg_scheduled. reflexivity.
  - cbn [select]. destruct others as [|other others]; [reflexivity|].
    rewrite others_msg_truthy, others_msg_incidents. reflexivity.
Qed.

(** At most one entry is dispatched, whatever the collaborators answer. *)
Lemma status_dispatches_at_most_once (ctx : Ctx) (service : Service) :
  length (List.filter is_dispatch (status env ctx service)) <= 1.
Proof.
  unfold status.
  destruct (cooldown_reply env ctx service) as [reply|] eqn:Hcool.
  { unfold cooldown_reply in Hcool. destruct (truthy _); [|discriminate].
    injection Hcool as <-. simpl. lia. }
  destruct (restriction_reply env ctx service) as [reply|] eqn:Hrestr.
  { unfold restriction_reply in Hrestr.
    destruct (truthy _); [|discriminate]. destruct (truthy _); [|discriminate].
    injection Hrestr as <-. simpl. lia. }
  destruct (statusapi_summary env (id service)) as [[summary etag] code].
  destruct (negb (code =? 200)%Z); [simpl; lia|].
  rewrite report_incidents_cases.
  destruct (process_json env summary "incidents") as [|a [|b l]];
    [destruct (scheduled_incidentdata_list _ _) as [|a [|b l]]| |]; simpl; lia.
Qed.

End StatusFacts.

(** ** The claims on concrete installations and invocations *)

(** C3 (what the code does).  With no incident and three maintenances that
    have begun, the first is dispatched and the two others are counted, but
    their entries are written on one line, without the line break that the
    summary of the other incidents puts after each entry. *)
Theorem status_scheduled_summary_on_one_line :
  status (Demo.status_env None None 200 Demo.under_maintenance) Demo.ctx Demo.discord
  = [TriggerTyping; Summary "discord"; ProcessJson "incidents"; ProcessJson "scheduled";
     dispatch_of Demo.ctx Demo.discord Demo.maintenance_A; Sleep;
     Send (NL +:+ "2 other scheduled maintenance events are live at the moment:" +:+ NL
             +:+ "B (<https://b>)C (<https://c>)") None]
  /\ status (Demo.status_env None None 200 Demo.outages) Demo.ctx Demo.discord
     = [TriggerTyping; Summary "discord"; ProcessJson "incidents"; ProcessJson "scheduled";
        dispatch_of Demo.ctx Demo.discord Demo.outage_A; Sleep;
        Send ("2 other incidents are live at the moment:" +:+ NL
                +:+ "Y (<https://y>)" +:+ NL +:+ "Z (<https://z>)" +:+ NL) None].
Proof. split; reflexivity. Qed.

(** C4, refuted as stated: without the sidecar, [format_info] raises
    [FileNotFoundError] to its caller and logs nothing. *)
Lemma format_info_missing_sidecar_propagates :
  run (format_info Demo.meta_no_sidecar Demo.ascii_lower Demo.plain_tabulate Demo.code_box
         "!" "Status" "2.2.9" [] [])
  = (Raise FileNotFoundError, []).
Proof. reflexivity. Qed.

(** C5, refuted as stated: invoked in channel 10, which is among the
    permitted channels 10 and 11, the command still answers with the list
    and stops. *)
Lemma status_redirects_from_permitted_channel :
  service_restrictions_get_guild
    (Demo.status_env None (Some [10; 11]%Z) 200 Demo.quiet)
    (guild_id Demo.ctx) (name Demo.discord) = Some [10; 11]%Z
  /\ In (channel_id Demo.ctx) [10; 11]%Z
  /\ status (Demo.status_env None (Some [10; 11]%Z) 200 Demo.quiet) Demo.ctx Demo.discord
     = [Send "You can check updates for Discord in <#10>." None].
Proof. split; [reflexivity|split; [now left|reflexivity]]. Qed.

(** C10, refuted as stated: with a sidecar that is the empty JSON object,
    a current version that is not a version makes the reader raise. *)
Lemma _get_current_vers_bad_version_raises :
  commit_json Demo.meta_no_commit = SidecarObject ∅
  /\ (∅ : gmap string string) !! "latest_commit" = None
  /\ run (_get_current_vers Demo.meta_no_commit Demo.ascii_lower "two" "Status")
     = (Raise ValueError, []).
Proof. split; [reflexivity|split; reflexivity]. Qed.

(** *** Witnesses *)

Lemma format_info_fetch_raises_shows_green_witness :
  exists r,
    run (format_info_report Demo.meta_down Demo.ascii_lower "!" "Status" "2.2.9" [] [])
    = (Ok r, [mkLog WARNING "Unable to parse versions." (Some TimeoutError)])
    /\ run (format_info Demo.meta_down Demo.ascii_lower Demo.plain_tabulate Demo.code_box
              "!" "Status" "2.2.9" [] [])
       = (Ok (render Demo.plain_tabulate Demo.code_box r),
          [mkLog WARNING "Unable to parse versions." (Some TimeoutError)])
    /\ column 2 (rep_versions r) = [CellStr "Unknown"; CellStr "Unknown"; CellStr "Unknown"]
    /\ column 3 (rep_versions r)
       = [CellStr GREEN_CIRCLE; CellStr GREEN_CIRCLE; CellStr GREEN_CIRCLE]
    /\ GREEN_CIRCLE <> "Unknown"
    /\ rep_update_msg r = NL.
Proof.
  apply (format_info_fetch_raises_shows_green Demo.meta_down Demo.ascii_lower
           Demo.plain_tabulate Demo.code_box "!" "Status" "2.2.9" [] []
           (mkVers {[ "status" := (2, 2, 9)%N ]} "abcdef1" (3, 4, 0)%N) TimeoutError);
    reflexivity.
Defined.

Lemma compare_vers_three_axes_witness :
  exists cog_updated utils_updated red_updated : bool,
    compare_vers (mkVers {[ "status" := (2, 2, 9)%N ]} "abcdef1" (3, 4, 1)%N)
      (mkVers {[ "status" := (2, 3, 0)%N; "ghissues" := (1, 4, 2)%N ]} "abcdef1" (3, 4, 1)%N)
      "status"
    = Ok (cog_updated, utils_updated, red_updated)
    /\ (cog_updated = true <-> ver_ge (2, 2, 9)%N (2, 3, 0)%N = true)
    /\ (utils_updated = true <-> "abcdef1" = "abcdef1")
    /\ (red_updated = true <-> ver_ge (3, 4, 1)%N (3, 4, 1)%N = true).
Proof.
  apply (compare_vers_three_axes
           (mkVers {[ "status" := (2, 2, 9)%N ]} "abcdef1" (3, 4, 1)%N)
           (mkVers {[ "status" := (2, 3, 0)%N; "ghissues" := (1, 4, 2)%N ]} "abcdef1"
              (3, 4, 1)%N)
           "status" (2, 2, 9)%N (2, 3, 0)%N); reflexivity.
Defined.

Lemma status_on_cooldown_witness :
  status (Demo.status_env (Some 45%Z) None 200 Demo.quiet) Demo.ctx Demo.discord
  = [Send "Status updates for Discord are on cooldown. Try again in 45 seconds."
       (Some 45%Z)]
  /\ List.filter is_fetch
       (status (Demo.status_env (Some 45%Z) None 200 Demo.quiet) Demo.ctx Demo.discord)
     = [].
Proof.
  apply (status_on_cooldown Demo.Page (Demo.status_env (Some 45%Z) None 200 Demo.quiet)
           Demo.ctx Demo.discord 45%Z); reflexivity.
Defined.

Lemma status_not_200_witness :
  status (Demo.status_env None None 503 Demo.outages) Demo.ctx Demo.discord
  = [TriggerTyping; Summary "discord";
     Send "Hmm, I can't get Discord's status at the moment." None]
  /\ List.filter is_parse
       (status (Demo.status_env None None 503 Demo.outages) Demo.ctx Demo.discord) = []
  /\ List.filter is_dispatch
       (status (Demo.status_env None None 503 Demo.outages) Demo.ctx Demo.discord) = [].
Proof.
  apply (status_not_200 Demo.Page (Demo.status_env None None 503 Demo.outages)
           Demo.ctx Demo.discord Demo.outages "etag" 503%Z);
    [reflexivity|reflexivity|reflexivity|discriminate].
Defined.

Lemma status_restriction_gate_witness :
  status (Demo.status_env None (Some [11; 10]%Z) 200 Demo.quiet)
    (mkCtx 7 1 99) Demo.discord
  = [Send "You can check updates for Discord in <#10>." None]
  /\ exists rest,
      status (Demo.status_env None (Some [11]%Z) 200 Demo.quiet) (mkCtx 7 1 99) Demo.discord
      = TriggerTyping :: Summary "discord" :: rest.
Proof.
  split.
  - apply (status_restriction_gate Demo.Page
             (Demo.status_env None (Some [11; 10]%Z) 200 Demo.quiet)
             (mkCtx 7 1 99) Demo.discord); [reflexivity|reflexivity|discriminate].
  - apply (status_restriction_gate Demo.Page
             (Demo.status_env None (Some [11]%Z) 200 Demo.quiet)
             (mkCtx 7 1 99) Demo.discord); [reflexivity|right; reflexivity].
Defined.

Lemma format_info_failures_witness :
  exists r,
    run (format_info Demo.meta_down Demo.ascii_lower Demo.plain_tabulate Demo.code_box
           "!" "Status" "2.2.9" [] [])
    = (Ok (render Demo.plain_tabulate Demo.code_box r),
       [mkLog WARNING "Unable to parse versions." (Some TimeoutError)])
    /\ column 2 (rep_versions r) = [CellStr "Unknown"; CellStr "Unknown"; CellStr "Unknown"].
Proof.
  exact (proj2 (format_info_failures Demo.meta_down Demo.ascii_lower Demo.plain_tabulate
                  Demo.code_box "!" "Status" "2.2.9" [] [])
           (mkVers {[ "status" := (2, 2, 9)%N ]} "abcdef1" (3, 4, 0)%N) eq_refl).
Defined.

Lemma out_of_date_check_never_raises_witness :
  exists record,
    run (out_of_date_check Demo.meta_up "status" "2.2.9") = (Ok tt, [record])
    /\ record
       = mkLog WARNING
           "Your status cog, from Vex, is out of date. You can update your cogs with the 'cog update' command in Discord."
           None.
Proof. exact (out_of_date_check_never_raises Demo.meta_up "status" "2.2.9"). Defined.

Lemma scheduled_list_begun_only_witness :
  In Demo.maintenance_B
    (scheduled_incidentdata_list 1000 (Demo.page_scheduled Demo.under_maintenance))
  /\ ~ In Demo.maintenance_later
         (scheduled_incidentdata_list 1000 (Demo.page_scheduled Demo.under_maintenance)).
Proof.
  split.
  - apply (scheduled_list_begun_only 1000
             (Demo.page_scheduled Demo.under_maintenance) Demo.maintenance_B).
    split; [right; right; left; reflexivity|].
    exists 200%Z. split; [reflexivity|reflexivity].
  - intros Hin.
    apply (scheduled_list_begun_only 1000
             (Demo.page_scheduled Demo.under_maintenance) Demo.maintenance_later) in Hin.
    destruct Hin as (_ & t & Ht & Hlt). injection Ht as <-. discriminate Hlt.
Defined.

Lemma _get_current_vers_outcomes_witness :
  run (_get_current_vers Demo.meta_no_commit Demo.ascii_lower "2.2.9" "Status")
  = (Ok (mkVers {[ "status" := (2, 2, 9)%N ]} "Unknown" (3, 4, 0)%N), []).
Proof.
  apply (proj1 (_get_current_vers_outcomes Demo.meta_no_commit Demo.ascii_lower
                  "2.2.9" "Status") ∅ (2, 2, 9)%N); reflexivity.
Defined.

(** * Further properties of vexutils/meta.py *)

Section MetaMore.

Context {VersionInfo : Type} `{VersionInfoOps VersionInfo}.
Variable env : MetaEnv (VersionInfo := VersionInfo).
Variable lower : string -> string.
Variable tabulate : list (list (Cell (VersionInfo := VersionInfo))) -> list string -> string -> string.
Variable box : string -> string.

(** The steps of [_get_latest_vers], read back from a result. *)
Lemma _get_latest_vers_inv (latest : Vers) :
  fst (run (_get_latest_vers env)) = Ok latest ->
  exists data pypi raw r,
    vers_api env = Ok data /\ pypi_api env = Ok pypi
    /\ data !! "utils" = Some raw
    /\ from_str (default "0.0.0" (default ∅ (pypi !! "info") !! "version")) = Some r
    /\ map_Forall (fun _ ver => is_Some (from_str ver)) (delete "utils" data)
    /\ latest = mkVers (omap from_str (delete "utils" data)) (slice7 raw) r.
Proof.
  unfold _get_latest_vers, getitem, from_str_exn, parse_cogs. unfold_M.
  destruct (vers_api env) as [data|e]; [|discriminate].
  destruct (data !! "utils") as [raw|] eqn:Hraw; [|discriminate].
  destruct (pypi_api env) as [pypi|e]; [|discriminate].
  destruct (from_str (default "0.0.0" _)) as [r|] eqn:Hred; [|discriminate].
  destruct (decide _) as [Hall|_]; [|discriminate].
  simpl. intros [= <-]. exists data, pypi, raw, r. auto 10.
Qed.

(** X1.  The fetch is all or nothing: it returns exactly when the
    first-party response arrived and has the key [utils], the registry
    response arrived, its version (or the default ["0.0.0"]) parses, and the
    version of every listed cog parses. *)
Theorem _get_latest_vers_all_or_nothing :
  (exists latest, fst (run (_get_latest_vers env)) = Ok latest)
  <-> exists data pypi,
        vers_api env = Ok data /\ is_Some (data !! "utils")
        /\ pypi_api env = Ok pypi
        /\ is_Some (from_str (default "0.0.0" (default ∅ (pypi !! "info") !! "version")))
        /\ (forall k s, k <> "utils" -> data !! k = Some s -> is_Some (from_str s)).
Proof.
  split.
  - intros [latest Hok].
    destruct (_get_latest_vers_inv latest Hok)
      as (data & pypi & raw & r & Hd & Hp & Hraw & Hred & Hall & _).
    exists data, pypi. repeat split; eauto.
    intros k s Hk Hks. apply (Hall k s). now apply lookup_delete_Some.
  - intros (data & pypi & Hd & [raw Hraw] & Hp & [r Hred] & Hall).
    unfold _get_latest_vers, getitem, from_str_exn, parse_cogs. unfold_M.
    rewrite Hd, Hraw, Hp, Hred.
    destruct (decide _) as [_|Hbad]; [eexists; reflexivity|].
    exfalso. apply Hbad. intros k s Hks.
    apply lookup_delete_Some in Hks as [Hk Hks]. eauto.
Qed.

(** X2.  What a successful fetch holds: the identifier of the utils is the
    first seven characters of the remote [utils]; [utils] itself is never
    listed as a cog; every other remote entry is listed under its own
    name with its parsed version, and nothing else is. *)
Theorem _get_latest_vers_contents (latest : Vers) :
  fst (run (_get_latest_vers env)) = Ok latest ->
  exists data raw,
    vers_api env = Ok data /\ data !! "utils" = Some raw
    /\ utils latest = slice7 raw
    /\ cogs latest !! "utils" = None
    /\ (forall k, k <> "utils" -> cogs latest !! k = data !! k ≫= from_str)
    /\ (forall k v, cogs latest !! k = Some v -> exists s, data !! k = Some s).
Proof.
  intros Hok.
  destruct (_get_latest_vers_inv latest Hok)
    as (data & pypi & raw & r & Hd & Hp & Hraw & Hred & Hall & ->).
  exists data, raw. cbn [utils cogs]. repeat split; auto.
  - rewrite lookup_omap, lookup_delete_eq. reflexivity.
  - intros k Hk. rewrite lookup_omap, lookup_delete_ne by congruence. reflexivity.
  - intros k v. rewrite lookup_omap. intros Hkv.
    destruct (delete "utils" data !! k) as [s|] eqn:Hks; [|discriminate].
    apply lookup_delete_Some in Hks as [_ Hks]. eauto.
Qed.

(** X3.  A registry response without [info], or whose [info] has no
    [version], gives Red's latest version as the parse of ["0.0.0"]. *)
Theorem _get_latest_vers_default_red (latest : Vers)
    (pypi : gmap string (gmap string string)) :
  pypi_api env = Ok pypi ->
  pypi !! "info" ≫= (fun info => info !! "version") = None ->
  fst (run (_get_latest_vers env)) = Ok latest ->
  from_str "0.0.0" = Some (red latest).
Proof.
  intros Hp Hmissing Hok.
  destruct (_get_latest_vers_inv latest Hok)
    as (data & pypi' & raw & r & Hd & Hp' & Hraw & Hred & Hall & ->).
  rewrite Hp in Hp'. injection Hp' as <-. cbn [red]. rewrite <- Hred. f_equal.
  destruct (pypi !! "info") as [info|]; simpl in *.
  - now rewrite Hmissing.
  - now rewrite lookup_empty.
Qed.

Lemma out_of_date_check_fetch_raised (cogname currentver : string) (e : Exn) :
  fst (run (_get_latest_vers env)) = Raise e ->
  run (out_of_date_check env cogname currentver)
  = (Ok tt,
     [mkLog DEBUG
        ("Something went wrong checking if " +:+ cogname +:+ " cog is up to date. See below.")
        (Some e)]).
Proof.
  intros Hraise. pose proof (_get_latest_vers_log env []) as Hlog.
  unfold out_of_date_check. unfold_M. rewrite Hlog, Hraise. reflexivity.
Qed.

(** X4.  One remote entry whose version does not parse makes the whole
    fetch raise, so that the background check of every cog, also of those
    whose own entry is fine, ends in a debug record and warns about
    nothing. *)
Theorem bad_remote_entry_silences_every_check
    (data : gmap string string) (k s : string) :
  vers_api env = Ok data ->
  k <> "utils" ->
  data !! k = Some s ->
  from_str s = None ->
  exists e,
    fst (run (_get_latest_vers env)) = Raise e
    /\ forall cogname currentver,
        run (out_of_date_check env cogname currentver)
        = (Ok tt,
           [mkLog DEBUG
              ("Something went wrong checking if " +:+ cogname
                 +:+ " cog is up to date. See below.")
              (Some e)]).
Proof.
  intros Hd Hk Hks Hbad.
  destruct (fst (run (_get_latest_vers env))) as [latest|e] eqn:Hrun.
  - exfalso.
    destruct (_get_latest_vers_inv latest Hrun)
      as (data' & pypi & raw & r & Hd' & _ & _ & _ & Hall & _).
    rewrite Hd in Hd'. injection Hd' as <-.
    destruct (Hall k s) as [v Hv]; [now apply lookup_delete_Some|congruence].
  - exists e. split; [reflexivity|].
    intros cogname currentver. now apply out_of_date_check_fetch_raised.
Qed.

(** The two ways out of the [try] statement. *)
Lemma reconcile_outcomes (current : Vers) (cog_name : string) :
  (exists latest c l,
      fst (run (_get_latest_vers env)) = Ok latest
      /\ cogs current !! cog_name = Some c /\ cogs latest !! cog_name = Some l
      /\ run (reconcile env current cog_name)
         = (Ok (FlagBool (ver_ge c l),
                FlagBool (String.eqb (utils current) (utils latest)),
                FlagBool (ver_ge (red current) (red latest)),
                LatestVers latest), []))
  \/ (exists e,
         fst (run (fetch_and_compare env current cog_name)) = Raise e
         /\ run (reconcile env current cog_name)
            = (Ok (FlagStr "Unknown", FlagStr "Unknown", FlagStr "Unknown",
                   LatestUnknown (UnknownVers_of {[ cog_name := "Unknown" ]})),
               [mkLog WARNING "Unable to parse versions." (Some e)])).
Proof.
  destruct (fst (run (fetch_and_compare env current cog_name)))
    as [[[[f1 f2] f3] lat]|e] eqn:Hbody.
  - left. revert Hbody. pose proof (_get_latest_vers_log env []) as Hlog.
    unfold fetch_and_compare, compare_vers, getitem. unfold_M. rewrite Hlog.
    destruct (fst (_get_latest_vers env [])) as [latest|e] eqn:Hfetch; [|discriminate].
    destruct (cogs current !! cog_name) as [c|] eqn:Hc; [|discriminate].
    destruct (cogs latest !! cog_name) as [l|] eqn:Hl; [|discriminate].
    intros _. exists latest, c, l. repeat split; auto.
    apply reconcile_fetched; [exact Hfetch|].
    unfold compare_vers, getitem. now rewrite Hc, Hl.
  - right. exists e. split; [reflexivity|]. now apply reconcile_raised.
Qed.

(** [format_info_report] after the current versions were read. *)
Lemma format_info_report_from_current
    (clean_prefix qualified_name cog_version : string)
    (extras : list (string * ExtraValue)) (loops : list VexLoop)
    (current : Vers) (f1 f2 f3 : Flag) (latest : Latest) (log : list LogRecord) :
  fst (run (_get_current_vers env lower cog_version qualified_name)) = Ok current ->
  run (reconcile env current (lower qualified_name)) = (Ok (f1, f2, f3, latest), log) ->
  run (format_info_report env lower clean_prefix qualified_name cog_version extras loops)
  = (Ok (mkReport
           (qualified_name +:+ " by Vexed." +:+ NL
              +:+ "<https://github.com/Vexed01/Vex-Cogs>" +:+ NL +:+ NL)
           (versions_table current latest (lower qualified_name) f1 f2 f3)
           (update_msg_of clean_prefix f1 f2 f3)
           (data_rows extras loops)),
     log).
Proof.
  intros Hcur Hrec.
  pose proof (_get_current_vers_log env lower cog_version qualified_name []) as Hlog.
  unfold format_info_report. unfold_M. rewrite Hlog, Hcur, Hrec. reflexivity.
Qed.

Lemma format_info_report_current
    (clean_prefix qualified_name cog_version : string)
    (extras : list (string * ExtraValue)) (loops : list VexLoop)
    (r : Report) (log : list LogRecord) :
  run (format_info_report env lower clean_prefix qualified_name cog_version extras loops)
  = (Ok r, log) ->
  exists current,
    fst (run (_get_current_vers env lower cog_version qualified_name)) = Ok current.
Proof.
  pose proof (_get_current_vers_log env lower cog_version qualified_name []) as Hlog.
  unfold format_info_report. unfold_M. rewrite Hlog.
  destruct (fst (_get_current_vers env lower cog_version qualified_name [])) as [current|e];
    [eauto|discriminate].
Qed.

(** X5.  Whenever [format_info] gets to build its table, the table has the
    three rows of the cog, the bundled utils and Red; every cell of the
    status column is the green or the red glyph; and no cell of the
    two version columns is empty. *)
Theorem format_info_report_table_shape
    (clean_prefix qualified_name cog_version : string)
    (extras : list (string * ExtraValue)) (loops : list VexLoop)
    (r : Report) (log : list LogRecord) :
  run (format_info_report env lower clean_prefix qualified_name cog_version extras loops)
  = (Ok r, log) ->
  column 0 (rep_versions r) = [CellStr "This Cog"; CellStr "Bundled Utils"; CellStr "Red"]
  /\ Forall (fun c => c = CellStr GREEN_CIRCLE \/ c = CellStr RED_CIRCLE)
       (column 3 (rep_versions r))
  /\ Forall (fun c => c <> CellNone)
       (column 1 (rep_versions r) ++ column 2 (rep_versions r))%list.
Proof.
  intros Hrun.
  destruct (format_info_report_current _ _ _ _ _ _ _ Hrun) as [current Hcur].
  destruct (_get_current_vers_cogs env lower _ _ _ Hcur) as (v & _ & Hcogs).
  assert (Hglyph : forall f : Flag, circle f = GREEN_CIRCLE \/ circle f = RED_CIRCLE).
  { intros f. unfold circle. destruct (truthy f); auto. }
  destruct (reconcile_outcomes current (lower qualified_name))
    as [(latest & c & l & _ & _ & Hl & Hrec)|(e & _ & Hrec)];
    rewrite (format_info_report_from_current clean_prefix _ _ extras loops _ _ _ _ _ _
               Hcur Hrec) in Hrun;
    injection Hrun as <- _; unfold column; cbn [rep_versions versions_table map nth app
      latest_cog_cell latest_utils_cell latest_red_cell UnknownVers_of unknown_cogs
      unknown_utils unknown_red];
    rewrite Hcogs, lookup_singleton_eq.
  - rewrite Hl. split; [reflexivity|].
    split; repeat apply Forall_cons_2; try apply Forall_nil_2; try discriminate;
      match goal with
      | |- CellStr (circle ?f) = _ \/ _ => destruct (Hglyph f) as [-> | ->]; auto
      end.
  - rewrite lookup_singleton_eq. split; [reflexivity|].
    split; repeat apply Forall_cons_2; try apply Forall_nil_2; try discriminate;
      match goal with
      | |- CellStr (circle ?f) = _ \/ _ => destruct (Hglyph f) as [-> | ->]; auto
      end.
Qed.

(** X6.  A cog the remote list does not have makes the whole comparison
    fail: the lookup raises [KeyError], one warning is logged, and the
    latest version of all three axes is shown as ["Unknown"], the utils
    and Red included although both were fetched. *)
Theorem format_info_unlisted_cog_all_unknown
    (clean_prefix qualified_name cog_version : string)
    (extras : list (string * ExtraValue)) (loops : list VexLoop)
    (current latest : Vers) :
  fst (run (_get_current_vers env lower cog_version qualified_name)) = Ok current ->
  fst (run (_get_latest_vers env)) = Ok latest ->
  cogs latest !! lower qualified_name = None ->
  exists r,
    run (format_info_report env lower clean_prefix qualified_name cog_version extras loops)
    = (Ok r, [mkLog WARNING "Unable to parse versions."
                (Some (KeyError (lower qualified_name)))])
    /\ column 2 (rep_versions r)
       = [CellStr "Unknown"; CellStr "Unknown"; CellStr "Unknown"].
Proof.
  intros Hcur Hfetch Hnone.
  destruct (_get_current_vers_cogs env lower _ _ _ Hcur) as (v & _ & Hcogs).
  assert (Hbody : fst (run (fetch_and_compare env current (lower qualified_name)))
                  = Raise (KeyError (lower qualified_name))).
  { pose proof (_get_latest_vers_log env []) as Hlog.
    unfold fetch_and_compare, compare_vers, getitem. unfold_M.
    rewrite Hlog, Hfetch, Hcogs, lookup_singleton_eq, Hnone. reflexivity. }
  rewrite (format_info_report_from_current clean_prefix _ _ extras loops _ _ _ _ _ _
             Hcur (reconcile_raised env _ _ _ Hbody)).
  eexists. split; [reflexivity|].
  unfold column; simpl. now rewrite lookup_singleton_eq.
Qed.

(** X7.  The block of update instructions is the bare line feed exactly
    when the three flags are all true; one flag that is not adds its
    instruction. *)
Theorem update_msg_bare_iff (clean_prefix : string) (f1 f2 f3 : Flag) :
  update_msg_of clean_prefix f1 f2 f3 = NL
  <-> truthy f1 = true /\ truthy f2 = true /\ truthy f3 = true.
Proof.
  unfold update_msg_of.
  destruct (truthy f1), (truthy f2), (truthy f3); cbn [negb];
    (split; [intros Heq|intros (H1 & H2 & H3)]); try discriminate; auto;
    exfalso; cbv in Heq; discriminate Heq.
Qed.

(** X8.  The second table has one row for each loop and one for each
    extra, and one empty row between the two groups when both are there;
    so it is empty exactly when there is neither loop nor extra. *)
Theorem data_rows_length (extras : list (string * ExtraValue)) (loops : list VexLoop) :
  length (data_rows (VersionInfo := VersionInfo) extras loops)
  = length loops + length extras + (if truthy loops && truthy extras then 1 else 0)
  /\ (truthy (data_rows (VersionInfo := VersionInfo) extras loops) = false
      <-> loops = [] /\ extras = []).
Proof.
  assert (Hlen : length (data_rows (VersionInfo := VersionInfo) extras loops)
                 = length loops + length extras
                   + (if truthy loops && truthy extras then 1 else 0)).
  { unfold data_rows. destruct extras as [|x extras], loops as [|y loops];
      simpl; rewrite ?length_app, ?length_map; simpl; rewrite ?length_map; lia. }
  split; [exact Hlen|].
  destruct (data_rows extras loops) as [|row rows] eqn:Hrows.
  - destruct loops, extras; cbn in Hlen; try lia. split; auto.
  - split; [discriminate|]. intros [-> ->]. cbn in Hlen. lia.
Qed.

(** X9.  Every extra is shown under its key: a string as it is, a boolean
    as the green or the red glyph; and every loop is shown under its
    friendly name with the glyph of its integrity. *)
Theorem data_rows_entries (extras : list (string * ExtraValue)) (loops : list VexLoop) :
  (forall key value, In (key, value) extras ->
     In [CellStr key;
         CellStr match value with
                 | ExtraBool b => if b then GREEN_CIRCLE else RED_CIRCLE
                 | ExtraStr s => s
                 end]
        (data_rows (VersionInfo := VersionInfo) extras loops))
  /\ (forall loop, In loop loops ->
        In [CellStr (friendly_name loop);
            CellStr (if integrity loop then GREEN_CIRCLE else RED_CIRCLE)]
           (data_rows (VersionInfo := VersionInfo) extras loops)).
Proof.
  unfold data_rows. split.
  - intros key value Hin.
    destruct extras as [|x extras]; [destruct Hin|].
    cbn [truthy list_truthy]. apply in_or_app. right.
    apply in_map_iff. exists (key, value). split; [|exact Hin].
    destruct value; reflexivity.
  - intros loop Hin.
    assert (Hrow : In [CellStr (VersionInfo := VersionInfo) (friendly_name loop);
                       CellStr (if integrity loop then GREEN_CIRCLE else RED_CIRCLE)]
                     (map (fun loop => [CellStr (friendly_name loop);
                                        CellStr (circle (integrity loop))]) loops)).
    { apply in_map_iff. exists loop. split; [reflexivity|exact Hin]. }
    destruct (truthy extras); [|exact Hrow].
    apply in_or_app. left.
    destruct (truthy (map _ loops)); [apply in_or_app; left|]; exact Hrow.
Qed.

(** X10.  The name of the cog counts only through its lower-case form:
    two names with the same lower-case form give the same outcome, the
    same log, and reports that differ at most in their heading. *)
Theorem format_info_report_name_case
    (clean_prefix q1 q2 cog_version : string)
    (extras : list (string * ExtraValue)) (loops : list VexLoop) :
  lower q1 = lower q2 ->
  match run (format_info_report env lower clean_prefix q1 cog_version extras loops),
        run (format_info_report env lower clean_prefix q2 cog_version extras loops) with
  | (Ok r1, log1), (Ok r2, log2) =>
      rep_versions r1 = rep_versions r2 /\ rep_update_msg r1 = rep_update_msg r2
      /\ rep_data r1 = rep_data r2 /\ log1 = log2
  | (Raise e1, log1), (Raise e2, log2) => e1 = e2 /\ log1 = log2
  | _, _ => False
  end.
Proof.
  intros Hlow. unfold format_info_report, _get_current_vers. unfold_M. rewrite Hlow.
  destruct load_commit_json as [data|e]; [|auto].
  destruct (from_str_exn cog_version) as [v|e]; [|auto].
  destruct (reconcile env _ (lower q2) []) as [[[[[f1 f2] f3] latest]|e] log]; auto.
Qed.

Lemma _get_current_vers_utils (curr_cog_ver qual_name : string) (current : Vers)
    (data : gmap string string) :
  commit_json env = SidecarObject data ->
  fst (run (_get_current_vers env lower curr_cog_ver qual_name)) = Ok current ->
  utils current = slice7 (default "Unknown" (data !! "latest_commit")).
Proof.
  intros Hside. unfold _get_current_vers, load_commit_json. unfold_M. rewrite Hside.
  destruct (from_str_exn curr_cog_ver) as [v|e]; [|discriminate].
  simpl. now intros [= <-].
Qed.

(** X18.  The bundled utils count as up to date exactly when the first
    seven characters of the packaged [latest_commit] (of ["Unknown"] when
    the sidecar has no such key) are the first seven characters of the
    remote [utils]: later characters are never compared. *)
Theorem utils_compared_on_seven_characters
    (qualified_name cog_version : string) (current latest : Vers)
    (data remote : gmap string string) (raw : string) (l : VersionInfo) :
  commit_json env = SidecarObject data ->
  vers_api env = Ok remote ->
  remote !! "utils" = Some raw ->
  fst (run (_get_current_vers env lower cog_version qualified_name)) = Ok current ->
  fst (run (_get_latest_vers env)) = Ok latest ->
  cogs latest !! lower qualified_name = Some l ->
  exists cog_updated utils_updated red_updated,
    run (reconcile env current (lower qualified_name))
    = (Ok (FlagBool cog_updated, FlagBool utils_updated, FlagBool red_updated,
           LatestVers latest), [])
    /\ (utils_updated = true
        <-> slice7 (default "Unknown" (data !! "latest_commit")) = slice7 raw).
Proof.
  intros Hside Hremote Hraw Hcur Hfetch Hl.
  destruct (_get_current_vers_cogs env lower _ _ _ Hcur) as (v & _ & Hcogs).
  pose proof (_get_current_vers_utils _ _ _ _ Hside Hcur) as Hutils.
  destruct (_get_latest_vers_utils env latest Hfetch) as (remote' & raw' & Hr' & Hraw' & Hlu).
  rewrite Hremote in Hr'. injection Hr' as <-. rewrite Hraw in Hraw'. injection Hraw' as <-.
  exists (ver_ge v l), (String.eqb (utils current) (utils latest)),
    (ver_ge (red current) (red latest)).
  split.
  - apply reconcile_fetched; [exact Hfetch|].
    unfold compare_vers, getitem. rewrite Hcogs, lookup_singleton_eq, Hl. reflexivity.
  - rewrite String.eqb_eq, Hutils, Hlu. reflexivity.
Qed.

End MetaMore.

(** * Further properties of the status command *)

Section StatusMore.

Variable Payload : Type.
Variable env : StatusEnv Payload.

(** X11.  The cooldown gate lets the command through exactly when the
    tracker answers nothing or a remaining time of zero; any other answer,
    a negative one included, stops it. *)
Theorem cooldown_reply_none_iff (ctx : Ctx) (service : Service) :
  cooldown_reply env ctx service = None
  <-> service_cooldown_handle env (author_id ctx) (name service) = None
      \/ service_cooldown_handle env (author_id ctx) (name service) = Some 0%Z.
Proof.
  unfold cooldown_reply.
  destruct (service_cooldown_handle env (author_id ctx) (name service)) as [t|].
  - unfold truthy, option_truthy, truthy, Z_truthy.
    destruct (Z.eqb_spec t 0) as [->|Hne]; simpl.
    + split; auto.
    + split; [discriminate|]. intros [Hn|Hz]; [discriminate|]. congruence.
  - simpl. split; auto.
Qed.

(** The mentions are those of the restricted channels that the bot
    resolves to a text channel. *)
Lemma text_mentions_spec (get : Z -> option Channel) (ids : list Z) (m : string) :
  In m (text_mentions (map get ids))
  <-> exists c, In c ids /\ get c = Some (TextChannel m).
Proof.
  unfold text_mentions. induction ids as [|c ids IH]; simpl.
  - split; [intros []|intros (c & [] & _)].
  - destruct (get c) as [[m'|]|] eqn:Hc; simpl; rewrite ?IH.
    + split.
      * intros [<-|(c' & Hin & Hc')]; eauto.
      * intros (c' & [<-|Hin] & Hc'); [left; congruence|right; eauto].
    + split.
      * intros (c' & Hin & Hc'); eauto.
      * intros (c' & [<-|Hin] & Hc'); [congruence|eauto].
    + split.
      * intros (c' & Hin & Hc'); eauto.
      * intros (c' & [<-|Hin] & Hc'); [congruence|eauto].
Qed.

(** X12.  Restrictions of which no channel is a text channel any more
    (deleted channels, voice channels) do not stop the command: with a
    [humanize_list] that gives the empty string for no item, the command
    goes on to fetch the status page. *)
Theorem stale_restrictions_do_not_block (ctx : Ctx) (service : Service)
    (restrictions : list Z) :
  cooldown_reply env ctx service = None ->
  service_restrictions_get_guild env (guild_id ctx) (name service) = Some restrictions ->
  (forall c m, In c restrictions -> bot_get_channel env c <> Some (TextChannel m)) ->
  humanize_list env [] = "" ->
  exists rest, status env ctx service = TriggerTyping :: Summary (id service) :: rest.
Proof.
  intros Hcool Hrestr Hstale Hempty.
  assert (Hnone : text_mentions (map (bot_get_channel env) restrictions) = []).
  { destruct (text_mentions (map (bot_get_channel env) restrictions)) as [|m ms] eqn:Hm;
      [reflexivity|].
    assert (Hin : In m (text_mentions (map (bot_get_channel env) restrictions)))
      by (rewrite Hm; now left).
    apply text_mentions_spec in Hin as (c & Hc & Hget). now destruct (Hstale c m Hc). }
  unfold status. rewrite Hcool. unfold restriction_reply. rewrite Hrestr.
  change (default [] (Some restrictions)) with restrictions. rewrite Hnone, Hempty.
  assert (Hgate : (if truthy (Some restrictions)
                   then if truthy "" then Some (Send ("You can check updates for "
                                                        +:+ friendly service +:+ " in "
                                                        +:+ "" +:+ ".") None)
                        else None
                   else None) = None) by (destruct (truthy (Some restrictions)); reflexivity).
  rewrite Hgate.
  destruct (statusapi_summary env (id service)) as [[summary etag] code].
  eexists. reflexivity.
Qed.

(** X13.  The selection loses nothing and mixes nothing: the primary entry
    followed by the others is the list of incidents when there is one, else
    the list of begun maintenances; the others are never of both kinds;
    and there is no primary entry only when both lists are empty. *)
Theorem select_partition (incidents scheduled : list IncidentData) :
  match select incidents scheduled with
  | (Some to_send, other_incidents, other_scheduled) =>
      (incidents = to_send :: other_incidents /\ other_scheduled = [])
      \/ (incidents = [] /\ scheduled = to_send :: other_scheduled /\ other_incidents = [])
  | (None, other_incidents, other_scheduled) =>
      incidents = [] /\ scheduled = [] /\ other_incidents = [] /\ other_scheduled = []
  end.
Proof.
  destruct incidents as [|i incidents]; [destruct scheduled as [|s scheduled]|];
    simpl; auto.
Qed.

(** X14.  The maintenance chosen as primary is the first entry of the
    page, in the order of the page, that has begun: no entry before it has a
    start time earlier than now, and the others are the begun entries after
    it. *)
Theorem scheduled_primary_is_first_begun (now : Z) (all_scheduled : list IncidentData)
    (to_send : IncidentData) (others : list IncidentData) :
  scheduled_incidentdata_list now all_scheduled = to_send :: others ->
  exists before after,
    all_scheduled = (before ++ to_send :: after)%list
    /\ (forall i t, In i before -> scheduled_for i = Some t -> (now <= t)%Z)
    /\ (exists t, scheduled_for to_send = Some t /\ (t < now)%Z)
    /\ others = scheduled_incidentdata_list now after.
Proof.
  unfold scheduled_incidentdata_list.
  induction all_scheduled as [|i l IH]; simpl; [discriminate|].
  destruct (scheduled_for i) as [t|] eqn:Hi.
  - destruct (Z.ltb_spec t now) as [Hlt|Hge].
    + intros [= <- <-]. exists [], l. simpl. repeat split; eauto.
      intros j t' [].
    + intros Hrest. destruct (IH Hrest) as (before & after & -> & Hbefore & Hstart & ->).
      exists (i :: before), after. repeat split; auto.
      intros j t' [<-|Hin] Hj; [congruence|eauto].
  - intros Hrest. destruct (IH Hrest) as (before & after & -> & Hbefore & Hstart & ->).
    exists (i :: before), after. repeat split; auto.
    intros j t' [<-|Hin] Hj; [congruence|eauto].
Qed.

(** Past both gates, with an answer 200, the command is typing, fetch,
    and the report. *)
Lemma status_past_gates (ctx : Ctx) (service : Service)
    (summary : Payload) (etag : string) :
  cooldown_reply env ctx service = None ->
  restriction_reply env ctx service = None ->
  statusapi_summary env (id service) = (summary, etag, 200%Z) ->
  status env ctx service
  = TriggerTyping :: Summary (id service) :: report_incidents env ctx service summary.
Proof.
  intros Hcool Hrestr Hsum. unfold status. rewrite Hcool, Hrestr, Hsum. reflexivity.
Qed.


(** X16.  While an incident is live the maintenances are not mentioned at
    all: the first incident is dispatched, and the only other message counts
    the remaining incidents and lists each on a line of its own; with one
    incident there is no other message. *)
Theorem status_live_incident_hides_maintenance (ctx : Ctx) (service : Service)
    (summary : Payload) (etag : string) (to_send : IncidentData)
    (others : list IncidentData) :
  cooldown_reply env ctx service = None ->
  restriction_reply env ctx service = None ->
  statusapi_summary env (id service) = (summary, etag, 200%Z) ->
  process_json env summary "incidents" = to_send :: others ->
  status env ctx service
  = (TriggerTyping :: Summary (id service) :: ProcessJson "incidents"
       :: ProcessJson "scheduled" :: dispatch_of ctx service to_send :: Sleep
       :: match others with
          | [] => []
          | _ :: _ =>
              [Send ((str_of_nat (length others)
                        +:+ " other incidents are live at the moment:" +:+ NL)
                       +:+ concat_all (map (fun i => summary_line i +:+ NL) others)) None]
          end).
Proof.
  intros Hcool Hrestr Hsum Hinc.
  rewrite (status_past_gates ctx service summary etag Hcool Hrestr Hsum).
  rewrite report_incidents_cases, Hinc. reflexivity.
Qed.

(** X17.  A page without incident whose maintenances all lie ahead (a
    start time not before now) or carry no start time counts as quiet: the
    command confirms that nothing is live and dispatches nothing. *)
Theorem status_future_maintenance_is_quiet (ctx : Ctx) (service : Service)
    (summary : Payload) (etag : string) :
  cooldown_reply env ctx service = None ->
  restriction_reply env ctx service = None ->
  statusapi_summary env (id service) = (summary, etag, 200%Z) ->
  process_json env summary "incidents" = [] ->
  (forall i t, In i (process_json env summary "scheduled") ->
               scheduled_for i = Some t -> (datetime_now env <= t)%Z) ->
  status env ctx service
  = [TriggerTyping; Summary (id service); ProcessJson "incidents";
     ProcessJson "scheduled"; Send NO_LIVE_INCIDENTS None].
Proof.
  intros Hcool Hrestr Hsum Hinc Hfuture.
  rewrite (status_past_gates ctx service summary etag Hcool Hrestr Hsum).
  rewrite report_incidents_cases, Hinc.
  destruct (scheduled_incidentdata_list _ _) as [|i l] eqn:Hsched; [reflexivity|].
  exfalso.
  assert (Hin : In i (scheduled_incidentdata_list (datetime_now env)
                        (process_json env summary "scheduled")))
    by (rewrite Hsched; now left).
  unfold scheduled_incidentdata_list in Hin. apply filter_In in Hin as [Hin Hbegun].
  destruct (scheduled_for i) as [t|] eqn:Ht; [|discriminate].
  apply Z.ltb_lt in Hbegun. specialize (Hfuture i t Hin Ht). lia.
Qed.

End StatusMore.

(** ** The further properties on concrete installations and invocations *)

Lemma _get_latest_vers_contents_witness :
  exists latest,
    fst (run (_get_latest_vers Demo.meta_up)) = Ok latest
    /\ exists data raw,
        vers_api Demo.meta_up = Ok data /\ data !! "utils" = Some raw
        /\ utils latest = slice7 raw
        /\ cogs latest !! "utils" = None
        /\ (forall k, k <> "utils" -> cogs latest !! k = data !! k ≫= from_str)
        /\ (forall k v, cogs latest !! k = Some v -> exists s, data !! k = Some s).
Proof.
  eexists. split; [reflexivity|].
  apply (_get_latest_vers_contents Demo.meta_up). reflexivity.
Defined.

Lemma _get_latest_vers_default_red_witness :
  exists latest,
    fst (run (_get_latest_vers Demo.meta_no_registry_version)) = Ok latest
    /\ from_str "0.0.0" = Some (red latest).
Proof.
  eexists. split; [reflexivity|].
  apply (_get_latest_vers_default_red Demo.meta_no_registry_version _ {[ "info" := ∅ ]});
    reflexivity.
Defined.

Lemma bad_remote_entry_silences_every_check_witness :
  exists e,
    fst (run (_get_latest_vers Demo.meta_bad_entry)) = Raise e
    /\ forall cogname currentver,
        run (out_of_date_check Demo.meta_bad_entry cogname currentver)
        = (Ok tt,
           [mkLog DEBUG
              ("Something went wrong checking if " +:+ cogname
                 +:+ " cog is up to date. See below.")
              (Some e)]).
Proof.
  apply (bad_remote_entry_silences_every_check Demo.meta_bad_entry
           (<[ "utils" := "abcdef2999999999" ]>
              (<[ "status" := "2.3.0" ]> {[ "ghissues" := "latest" ]}))
           "ghissues" "latest");
    [reflexivity|discriminate|reflexivity|reflexivity].
Defined.

Lemma format_info_report_table_shape_witness :
  exists r log,
    run (format_info_report Demo.meta_up Demo.ascii_lower "!" "Status" "2.2.9" [] [])
    = (Ok r, log)
    /\ column 0 (rep_versions r)
       = [CellStr "This Cog"; CellStr "Bundled Utils"; CellStr "Red"]
    /\ Forall (fun c => c = CellStr GREEN_CIRCLE \/ c = CellStr RED_CIRCLE)
         (column 3 (rep_versions r))
    /\ Forall (fun c => c <> CellNone)
         (column 1 (rep_versions r) ++ column 2 (rep_versions r))%list.
Proof.
  eexists. eexists. split; [reflexivity|].
  apply (format_info_report_table_shape Demo.meta_up Demo.ascii_lower
           "!" "Status" "2.2.9" [] [] _ []).
  reflexivity.
Defined.

Lemma format_info_unlisted_cog_all_unknown_witness :
  exists r,
    run (format_info_report Demo.meta_up Demo.ascii_lower "!" "Unlisted" "1.0.0" [] [])
    = (Ok r, [mkLog WARNING "Unable to parse versions." (Some (KeyError "unlisted"))])
    /\ column 2 (rep_versions r)
       = [CellStr "Unknown"; CellStr "Unknown"; CellStr "Unknown"].
Proof.
  eapply (format_info_unlisted_cog_all_unknown Demo.meta_up Demo.ascii_lower
            "!" "Unlisted" "1.0.0" [] []); reflexivity.
Defined.

Lemma format_info_report_name_case_witness :
  match run (format_info_report Demo.meta_up Demo.ascii_lower "!" "Status" "2.2.9" [] []),
        run (format_info_report Demo.meta_up Demo.ascii_lower "!" "STATUS" "2.2.9" [] []) with
  | (Ok r1, log1), (Ok r2, log2) =>
      rep_versions r1 = rep_versions r2 /\ rep_update_msg r1 = rep_update_msg r2
      /\ rep_data r1 = rep_data r2 /\ log1 = log2
  | (Raise e1, log1), (Raise e2, log2) => e1 = e2 /\ log1 = log2
  | _, _ => False
  end.
Proof.
  apply (format_info_report_name_case Demo.meta_up Demo.ascii_lower
           "!" "Status" "STATUS" "2.2.9" [] []).
  reflexivity.
Defined.

Lemma utils_compared_on_seven_characters_witness :
  exists cog_updated utils_updated red_updated,
    run (reconcile Demo.meta_up
           (mkVers {[ "status" := (2, 2, 9)%N ]} "abcdef1" (3, 4, 0)%N) "status")
    = (Ok (FlagBool cog_updated, FlagBool utils_updated, FlagBool red_updated,
           LatestVers
             (mkVers {[ "status" := (2, 3, 0)%N; "ghissues" := (1, 4, 2)%N ]}
                "abcdef2" (3, 4, 1)%N)), [])
    /\ (utils_updated = true <-> slice7 "abcdef1234567890" = slice7 "abcdef2999999999").
Proof.
  exact (utils_compared_on_seven_characters Demo.meta_up Demo.ascii_lower
           "Status" "2.2.9"
           (mkVers {[ "status" := (2, 2, 9)%N ]} "abcdef1" (3, 4, 0)%N)
           (mkVers {[ "status" := (2, 3, 0)%N; "ghissues" := (1, 4, 2)%N ]}
              "abcdef2" (3, 4, 1)%N)
           {[ "latest_commit" := "abcdef1234567890" ]}
           (<[ "utils" := "abcdef2999999999" ]>
              (<[ "status" := "2.3.0" ]> {[ "ghissues" := "1.4.2" ]}))
           "abcdef2999999999" (2, 3, 0)%N
           eq_refl eq_refl eq_refl eq_refl eq_refl eq_refl).
Defined.

Lemma stale_restrictions_do_not_block_witness :
  exists rest,
    status (Demo.status_env None (Some [11]%Z) 200 Demo.quiet) Demo.ctx Demo.discord
    = TriggerTyping :: Summary "discord" :: rest.
Proof.
  apply (stale_restrictions_do_not_block Demo.Page
           (Demo.status_env None (Some [11]%Z) 200 Demo.quiet) Demo.ctx Demo.discord
           [11]%Z); [reflexivity|reflexivity| |reflexivity].
  intros c m [<-|[]]. discriminate.
Defined.

Lemma scheduled_primary_is_first_begun_witness :
  exists before after,
    [Demo.maintenance_later; Demo.maintenance_B; Demo.maintenance_C]
    = (before ++ Demo.maintenance_B :: after)%list
    /\ (forall i t, In i before -> scheduled_for i = Some t -> (1000 <= t)%Z)
    /\ (exists t, scheduled_for Demo.maintenance_B = Some t /\ (t < 1000)%Z)
    /\ [Demo.maintenance_C] = scheduled_incidentdata_list 1000 after.
Proof.
  apply (scheduled_primary_is_first_begun 1000
           [Demo.maintenance_later; Demo.maintenance_B; Demo.maintenance_C]
           Demo.maintenance_B [Demo.maintenance_C]).
  reflexivity.
Defined.

Lemma status_live_incident_hides_maintenance_witness :
  status (Demo.status_env None None 200 Demo.outages) Demo.ctx Demo.discord
  = [TriggerTyping; Summary "discord"; ProcessJson "incidents"; ProcessJson "scheduled";
     dispatch_of Demo.ctx Demo.discord Demo.outage_A; Sleep;
     Send (("2" +:+ " other incidents are live at the moment:" +:+ NL)
             +:+ concat_all (map (fun i => summary_line i +:+ NL)
                               [Demo.outage_B; Demo.outage_C])) None].
Proof.
  apply (status_live_incident_hides_maintenance Demo.Page
           (Demo.status_env None None 200 Demo.outages) Demo.ctx Demo.discord
           Demo.outages "etag" Demo.outage_A [Demo.outage_B; Demo.outage_C]);
    reflexivity.
Defined.

Lemma status_future_maintenance_is_quiet_witness :
  status (Demo.status_env None None 200 Demo.upcoming) Demo.ctx Demo.discord
  = [TriggerTyping; Summary "discord"; ProcessJson "incidents"; ProcessJson "scheduled";
     Send NO_LIVE_INCIDENTS None].
Proof.
  apply (status_future_maintenance_is_quiet Demo.Page
           (Demo.status_env None None 200 Demo.upcoming) Demo.ctx Demo.discord
           Demo.upcoming "etag"); try reflexivity.
  intros i t [<-|[]] [= <-]. discriminate.
Defined.
